(** * Flash-flood dashboard: the alert filter and the map viewport

    A shallow embedding of the two helpers of [app.py] that carry logic,
    [feature_matches_county_state] and [compute_initial_map_center], and of
    the script lines that call them (the list comprehension that filters the
    alert features and the choice [features or all_features]).

    The helpers receive whatever the alerts feed decoded to, so they are
    modelled over untyped Python values and every Python operation they use
    is given with the exception it raises outside its domain.

    Modelling choices, all of them recorded where they are made:
    - a number is an [int] (as [Z]) or a [float]; a float is an IEEE-754
      binary64 number, with the signed zeros, the infinities and NaN, and
      its operations round to nearest, ties to even;
    - a string is a sequence of code points below 256;
    - a [dict] is the list of its items in insertion order, looked up from
      the front; keys are strings, as in decoded JSON. *)

From Stdlib Require Import ZArith QArith Ascii String Bool Lia SpecFloat.
From stdpp Require Import base list.

Set Warnings "-register-all".

Local Open Scope string_scope.
Local Open Scope Z_scope.

(** ** Python values and exceptions *)

(** A Python float: a binary64 number, in the specification of IEEE-754
    arithmetic of the Standard Library. *)
Definition float : Type := spec_float.

Inductive pyval : Type :=
| PNone
| PBool (b : bool)
| PInt (z : Z)
| PFloat (x : float)
| PStr (s : string)
| PList (l : list pyval)
| PDict (items : list (string * pyval)).

(** The exceptions the modelled operations raise.  All of them are
    subclasses of Python's [Exception]. *)
Inductive exn : Type :=
| AttributeError
| TypeError
| IndexError
| KeyError
| ValueError
| ZeroDivisionError
| OverflowError.

Inductive result (A : Type) : Type :=
| Ok (a : A)
| Raise (e : exn).

Arguments Ok {A} a.
Arguments Raise {A} e.

Definition bind {A B : Type} (m : result A) (k : A -> result B) : result B :=
  match m with
  | Ok a => k a
  | Raise e => Raise e
  end.

Notation "'let!' x ':=' m 'in' k" := (bind m (fun x => k))
  (at level 10, x pattern, m at level 100, k at level 200,
   format "'[v' 'let!'  x  ':='  m  'in' '/' k ']'").

(** ** Strings: [str.lower], [str.strip] and the [in] operator *)

Module PyStr.

Definition code (c : ascii) : N := N_of_ascii c.

(** [str.lower] on a code point below 256: the Latin capitals A-Z and
    U+00C0..U+00DE except the multiplication sign U+00D7 move up by 32. *)
Definition lower_char (c : ascii) : ascii :=
  let n := code c in
  if ((65 <=? n) && (n <=? 90)
      || (192 <=? n) && (n <=? 222) && negb (n =? 215))%N
  then ascii_of_N (n + 32)
  else c.

Fixpoint lower (s : string) : string :=
  match s with
  | EmptyString => EmptyString
  | String c s' => String (lower_char c) (lower s')
  end.

(** [str.isspace] on a code point below 256. *)
Definition is_space (c : ascii) : bool :=
  let n := code c in
  ((9 <=? n) && (n <=? 13) || (28 <=? n) && (n <=? 32)
   || (n =? 133) || (n =? 160))%N.

Fixpoint lstrip (s : string) : string :=
  match s with
  | EmptyString => EmptyString
  | String c s' => if is_space c then lstrip s' else s
  end.

Fixpoint rstrip (s : string) : string :=
  match s with
  | EmptyString => EmptyString
  | String c s' =>
      match rstrip s' with
      | EmptyString => if is_space c then EmptyString else String c EmptyString
      | r => String c r
      end
  end.

Definition strip (s : string) : string := rstrip (lstrip s).

(** [needle in hay]. *)
Fixpoint contains (needle hay : string) : bool :=
  String.prefix needle hay
  || match hay with
     | EmptyString => false
     | String _ hay' => contains needle hay'
     end.

(** What [in] decides: [needle] occurs in [hay] as a contiguous block. *)
Definition occurs_in (needle hay : string) : Prop :=
  exists pre post, hay = pre ++ needle ++ post.

Definition is_empty (s : string) : bool :=
  match s with
  | EmptyString => true
  | String _ _ => false
  end.

Fixpoint chars (s : string) : list string :=
  match s with
  | EmptyString => []
  | String c s' => String c EmptyString :: chars s'
  end.

End PyStr.

(** ** Primitive operations on values *)

(** Truth value of an object, as [if x], [not x], [x or y], [x and y] use it. *)
Definition py_truth (v : pyval) : bool :=
  match v with
  | PNone => false
  | PBool b => b
  | PInt z => negb (z =? 0)
  | PFloat x => match x with S754_zero _ => false | _ => true end
  | PStr s => negb (PyStr.is_empty s)
  | PList l => match l with [] => false | _ :: _ => true end
  | PDict items => match items with [] => false | _ :: _ => true end
  end.

(** [a or b]. *)
Definition py_or (a b : pyval) : pyval := if py_truth a then a else b.

Fixpoint dict_lookup (items : list (string * pyval)) (k : string) : option pyval :=
  match items with
  | [] => None
  | (k', v) :: rest => if String.eqb k' k then Some v else dict_lookup rest k
  end.

(** [d.get(k, dflt)]: only a [dict] has the method. *)
Definition py_get (d : pyval) (k : string) (dflt : pyval) : result pyval :=
  match d with
  | PDict items =>
      match dict_lookup items k with
      | Some v => Ok v
      | None => Ok dflt
      end
  | _ => Raise AttributeError
  end.

(** [v[i]] for a literal index [i >= 0]. *)
Definition py_index (v : pyval) (i : nat) : result pyval :=
  match v with
  | PList l =>
      match nth_error l i with
      | Some x => Ok x
      | None => Raise IndexError
      end
  | PStr s =>
      match String.get i s with
      | Some c => Ok (PStr (String c EmptyString))
      | None => Raise IndexError
      end
  | PDict _ => Raise KeyError
  | _ => Raise TypeError
  end.

(** The items an iteration over [v] yields: the elements of a list, the
    characters of a string, the keys of a dict. *)
Definition py_iter (v : pyval) : result (list pyval) :=
  match v with
  | PList l => Ok l
  | PStr s => Ok (map PStr (PyStr.chars s))
  | PDict items => Ok (map (fun kv => PStr (fst kv)) items)
  | _ => Raise TypeError
  end.

(** [len(v)]. *)
Definition py_len (v : pyval) : result nat :=
  match v with
  | PList l => Ok (length l)
  | PStr s => Ok (String.length s)
  | PDict items => Ok (length items)
  | _ => Raise TypeError
  end.

(** [a, b = v]. *)
Definition py_unpack2 (v : pyval) : result (pyval * pyval) :=
  let! items := py_iter v in
  match items with
  | [a; b] => Ok (a, b)
  | _ => Raise ValueError
  end.

(** [v == s] for a string literal [s]. *)
Definition py_eq_str (v : pyval) (s : string) : bool :=
  match v with
  | PStr t => String.eqb t s
  | _ => false
  end.

(** ** Numbers *)

(** Binary64: 53 bits of precision, exponents below 1024. *)
Definition prec : Z := 53.
Definition emax : Z := 1024.

(** An int as an exact operand of the float operations. *)
Definition Z2SF (z : Z) : float :=
  match z with
  | Z0 => S754_zero false
  | Zpos p => S754_finite false p 0
  | Zneg p => S754_finite true p 0
  end.

(** [x + y] and [x / y] on floats (the divisor is not zero where the
    code divides). *)
Definition float_add (x y : float) : float := SFadd prec emax x y.
Definition float_div (x y : float) : float := SFdiv prec emax x y.

(** [float(z)]: the float nearest to the int; [OverflowError] when the
    int is too large to have one. *)
Definition float_of_int (z : Z) : result float :=
  match binary_normalize prec emax z 0 false with
  | S754_infinity _ => Raise OverflowError
  | x => Ok x
  end.

(** [a / b] on ints, true division: the float nearest to the quotient;
    [OverflowError] when the quotient is too large to have one. *)
Definition int_true_div (a b : Z) : result float :=
  if b =? 0 then Raise ZeroDivisionError
  else
    match SFdiv prec emax (Z2SF a) (Z2SF b) with
    | S754_infinity _ => Raise OverflowError
    | x => Ok x
    end.

(** A decimal literal read as a float: [39.833] is
    [float_lit (Qmake 39833 1000)], the float nearest to 39833/1000. *)
Definition float_lit (q : Q) : float :=
  SFdiv prec emax (Z2SF (Qnum q)) (Z2SF (Zpos (Qden q))).

(** The running total of [sum]: it starts at the int [0] and stays a number. *)
Inductive num : Type :=
| NInt (z : Z)
| NFloat (x : float).

(** The operand of [+] read as a number; [bool] is a subclass of [int]. *)
Definition as_num (v : pyval) : option num :=
  match v with
  | PBool b => Some (NInt (if b then 1 else 0))
  | PInt z => Some (NInt z)
  | PFloat x => Some (NFloat x)
  | _ => None
  end.

(** [acc + v] with a numeric left operand: exact on two ints; when one
    operand is a float the other is converted and the floats are added. *)
Definition num_add (acc : num) (v : pyval) : result num :=
  match as_num v with
  | None => Raise TypeError
  | Some n =>
      match acc, n with
      | NInt a, NInt b => Ok (NInt (a + b))
      | NInt a, NFloat y =>
          let! x := float_of_int a in
          Ok (NFloat (float_add x y))
      | NFloat x, NInt b =>
          let! y := float_of_int b in
          Ok (NFloat (float_add x y))
      | NFloat x, NFloat y => Ok (NFloat (float_add x y))
      end
  end.

(** [acc / n], true division by a length: the quotient is a float. *)
Definition num_div (acc : num) (n : nat) : result pyval :=
  match n with
  | O => Raise ZeroDivisionError
  | S _ =>
      match acc with
      | NInt a =>
          let! q := int_true_div a (Z.of_nat n) in
          Ok (PFloat q)
      | NFloat x =>
          let! d := float_of_int (Z.of_nat n) in
          Ok (PFloat (float_div x d))
      end
  end.

(** ** [feature_matches_county_state] (app.py, lines 74-86) *)

Definition ANY : string := "(Any)".

(** [state_q and state_q != "(Any)"]. *)
Definition state_given (state_q : string) : bool :=
  negb (PyStr.is_empty state_q) && negb (String.eqb state_q ANY).

(** [(v or "").lower()]: a true value that is not a string has no [lower]. *)
Definition py_or_empty_lower (v : pyval) : result string :=
  match py_or v (PStr "") with
  | PStr s => Ok (PyStr.lower s)
  | _ => Raise AttributeError
  end.

Definition feature_matches_county_state
    (feature : pyval) (county_q state_q : string) : result bool :=
  if PyStr.is_empty county_q
     && (PyStr.is_empty state_q || String.eqb state_q ANY)
  then Ok true
  else
    let! props := py_get feature "properties" (PDict []) in
    let! a := py_get props "areaDesc" PNone in
    let! area_desc := py_or_empty_lower a in
    let county_ok :=
      if negb (PyStr.is_empty county_q)
      then PyStr.contains (PyStr.lower (PyStr.strip county_q)) area_desc
      else true in
    let state_ok :=
      if state_given state_q
      then PyStr.contains (PyStr.lower state_q) area_desc
      else true in
    Ok (county_ok && state_ok).

(** ** [compute_initial_map_center] (app.py, lines 88-115) *)

(** The triple [lat, lon, zoom] the function returns.  A [Point] hands back
    the two coordinate objects as they are, so the first two components are
    values. *)
Definition viewport : Type := pyval * pyval * Z.

Definition CONUS_LON : float := float_lit (Qmake (-98583) 1000).
Definition CONUS_LAT : float := float_lit (Qmake 39833 1000).

(** [return 39.833, -98.583, 4]. *)
Definition conus_fallback : viewport := (PFloat CONUS_LAT, PFloat CONUS_LON, 4).

(** The loop of [sum(c[i] for c in coords)]: each item is indexed and added
    to the total before the next one is looked at.  Floats are added one
    after the other, from left to right; CPython from 3.12 on also carries
    a correction term through a run of floats, which can change the value
    of such a sum but not whether it raises.  Sums of ints are exact. *)
Fixpoint sum_items (i : nat) (acc : num) (items : list pyval) : result num :=
  match items with
  | [] => Ok acc
  | c :: rest =>
      let! x := py_index c i in
      let! acc' := num_add acc x in
      sum_items i acc' rest
  end.

(** [sum(c[i] for c in coords)]. *)
Definition sum_component (i : nat) (coords : pyval) : result num :=
  let! items := py_iter coords in
  sum_items i (NInt 0) items.

(** Lines 100-102 (and 107-109): the mean of the longitudes, then the mean
    of the latitudes, and zoom 6. *)
Definition ring_center (coords : pyval) : result viewport :=
  let! s0 := sum_component 0 coords in
  let! n0 := py_len coords in
  let! lon := num_div s0 n0 in
  let! s1 := sum_component 1 coords in
  let! n1 := py_len coords in
  let! lat := num_div s1 n1 in
  Ok (lat, lon, 6).

(** Lines 97-112: the [if]/[elif] chain on the geometry type.  [Some v]
    when the branch returns [v], [None] when control falls out of the chain
    and the loop goes on. *)
Definition geometry_center (geom gtype : pyval) : result (option viewport) :=
  if py_eq_str gtype "Polygon" then
    let! cs := py_get geom "coordinates" (PList []) in
    let! coords := py_index cs 0 in
    if py_truth coords then
      let! v := ring_center coords in
      Ok (Some v)
    else Ok None
  else if py_eq_str gtype "MultiPolygon" then
    let! polys := py_get geom "coordinates" (PList []) in
    if py_truth polys then
      let! p0 := py_index polys 0 in
      if py_truth p0 then
        let! r0 := py_index p0 0 in
        if py_truth r0 then
          let! q0 := py_index polys 0 in
          let! coords := py_index q0 0 in
          let! v := ring_center coords in
          Ok (Some v)
        else Ok None
      else Ok None
    else Ok None
  else if py_eq_str gtype "Point" then
    let! c := py_get geom "coordinates"
                (PList [PFloat CONUS_LON; PFloat CONUS_LAT]) in
    let! (lon, lat) := py_unpack2 c in
    Ok (Some (lat, lon, 6))
  else Ok None.

(** One turn of the [for] loop (lines 95-112). *)
Definition feature_step (feat : pyval) : result (option viewport) :=
  let! g := py_get feat "geometry" PNone in
  let geom := py_or g (PDict []) in
  let! gtype := py_get geom "type" PNone in
  geometry_center geom gtype.

(** The [for] loop over the features. *)
Fixpoint scan_features (feats : list pyval) : result (option viewport) :=
  match feats with
  | [] => Ok None
  | feat :: rest =>
      let! r := feature_step feat in
      match r with
      | Some v => Ok (Some v)
      | None => scan_features rest
      end
  end.

(** The body of the [try]. *)
Definition center_try (geojson : pyval) : result (option viewport) :=
  let! fs := py_get geojson "features" (PList []) in
  let! feats := py_iter fs in
  scan_features feats.

(** [try: ... except Exception: pass], then the fallback [return]. *)
Definition compute_initial_map_center (geojson : pyval) : viewport :=
  match center_try geojson with
  | Ok (Some v) => v
  | Ok None => conus_fallback
  | Raise _ => conus_fallback
  end.

(** ** The script around the helpers (app.py, lines 148-158) *)

(** [[f for f in all_features if feature_matches_county_state(f, ...)]],
    item by item. *)
Fixpoint filter_items (items : list pyval) (county_q state_q : string)
  : result (list pyval) :=
  match items with
  | [] => Ok []
  | f :: rest =>
      let! keep := feature_matches_county_state f county_q state_q in
      let! kept := filter_items rest county_q state_q in
      Ok (if keep then f :: kept else kept)
  end.

Definition filter_features (all_features : pyval) (county_q state_q : string)
  : result (list pyval) :=
  let! items := py_iter all_features in
  filter_items items county_q state_q.

(** [{"type": "FeatureCollection", "features": fs}]. *)
Definition feature_collection (fs : pyval) : pyval :=
  PDict [("type", PStr "FeatureCollection"); ("features", fs)].

(** [features or all_features], [features] being the list the comprehension
    built. *)
Definition features_or (features : list pyval) (all_features : pyval) : pyval :=
  py_or (PList features) all_features.

(** Lines 148-158: the features of the feed, the filtered list, and the
    viewport the map is opened with. *)
Definition map_viewport (alerts_geojson : pyval) (county_q state_q : string)
  : result viewport :=
  let! all_features := py_get alerts_geojson "features" (PList []) in
  let! features := filter_features all_features county_q state_q in
  Ok (compute_initial_map_center
        (feature_collection (features_or features all_features))).

(** ** The user agent (app.py, lines 22-29) *)

Definition DEFAULT_USER_AGENT : string :=
  "FlashFloodTracker/1.0 (contact: youremail@example.com)".

(** [env] is the value of the environment variable [USER_AGENT], when it
    is set; [secret] is how the call [st.secrets.get("USER_AGENT", "")]
    ends, with the value of the secret (any value of the secrets file) or
    with an exception.  The call is made only when the variable gave
    nothing, and an exception in it is swallowed. *)
Definition resolve_user_agent (env : option string) (secret : result pyval)
  : pyval :=
  let ua0 := PStr (match env with Some s => s | None => "" end) in
  let attempt :=
    if negb (py_truth ua0) then secret else Ok ua0 in
  let ua1 :=
    match attempt with
    | Ok v => v
    | Raise _ => ua0
    end in
  if negb (py_truth ua1) then PStr DEFAULT_USER_AGENT else ua1.

(** ** The tooltip (app.py, lines 169-189) *)

Definition desired_fields : list string :=
  ["headline"; "areaDesc"; "severity"; "certainty"; "effective"; "expires"].

Definition aliases_map : list (string * string) :=
  [("headline", "Headline");
   ("areaDesc", "Areas");
   ("severity", "Severity");
   ("certainty", "Certainty");
   ("effective", "Effective");
   ("expires", "Expires")].

(** [s in v] for a string [s]: a key of a dict, a block of a string, an
    element of a list; other values are no containers. *)
Definition py_in (s : string) (v : pyval) : result bool :=
  match v with
  | PDict items => Ok (existsb (fun kv => String.eqb (fst kv) s) items)
  | PStr t => Ok (PyStr.contains s t)
  | PList l => Ok (existsb (fun x => py_eq_str x s) l)
  | _ => Raise TypeError
  end.

(** [[f for f in fs if f in sample_props]]. *)
Fixpoint select_fields (fs : list string) (sample_props : pyval)
  : result (list string) :=
  match fs with
  | [] => Ok []
  | f :: rest =>
      let! present := py_in f sample_props in
      let! chosen := select_fields rest sample_props in
      Ok (if present then f :: chosen else chosen)
  end.

(** [aliases_map[f]]. *)
Fixpoint alias_of (table : list (string * string)) (f : string) : result string :=
  match table with
  | [] => Raise KeyError
  | (k, a) :: rest => if String.eqb k f then Ok a else alias_of rest f
  end.

(** [[aliases_map[f] for f in fields]]. *)
Fixpoint lookup_aliases (fields : list string) : result (list string) :=
  match fields with
  | [] => Ok []
  | f :: rest =>
      let! a := alias_of aliases_map f in
      let! others := lookup_aliases rest in
      Ok (a :: others)
  end.

(** The arguments of [GeoJsonTooltip(...)]. *)
Record tooltip : Type := Tooltip {
  tip_fields : list string;
  tip_aliases : list string;
  tip_sticky : bool;
  tip_localize : bool
}.

(** Lines 169-189: [None], or the tooltip built from the properties of the
    first of the filtered features. *)
Definition build_tooltip (features : list pyval) : result (option tooltip) :=
  match features with
  | [] => Ok None
  | first :: _ =>
      let! p := py_get first "properties" PNone in
      let sample_props := py_or p (PDict []) in
      let! fields := select_fields desired_fields sample_props in
      match fields with
      | [] => Ok None
      | _ :: _ =>
          let! aliases := lookup_aliases fields in
          Ok (Some (Tooltip fields aliases true true))
      end
  end.

(** ** The map and its layers (app.py, lines 117-135 and 156-200) *)










(** ** The state selector (app.py, lines 37-49) *)

Definition STATE_ABBRS : list string :=
  ["AL";"AK";"AZ";"AR";"CA";"CO";"CT";"DC";"DE";"FL";"GA";"HI";"IA";"ID";"IL";"IN";
   "KS";"KY";"LA";"MA";"MD";"ME";"MI";"MN";"MO";"MS";"MT";"NC";"ND";"NE";"NH";"NJ";
   "NM";"NV";"NY";"OH";"OK";"OR";"PA";"RI";"SC";"SD";"TN";"TX";"UT";"VA";"VT";"WA";
   "WI";"WV";"WY";"PR";"GU";"VI"].

(** The options of the select box, [["(Any)"] + STATE_ABBRS]; the first one
    is selected at the start. *)
Definition state_options : list string := "(Any)" :: STATE_ABBRS.

(** ** Vocabulary of the statements *)

(** A computation ends with an exception, or with a value. *)
Definition raises {A : Type} (r : result A) : Prop := exists e, r = Raise e.
Definition returns {A : Type} (r : result A) : Prop := exists a, r = Ok a.

(** The [areaDesc] string in the properties of a feature, when the feature
    is a mapping, its [properties] entry is a mapping and the [areaDesc]
    entry of that is a string. *)
Definition area_desc_of (f : pyval) : option string :=
  match f with
  | PDict fi =>
      match dict_lookup fi "properties" with
      | Some (PDict pi) =>
          match dict_lookup pi "areaDesc" with
          | Some (PStr s) => Some s
          | _ => None
          end
      | _ => None
      end
  | _ => None
  end.

(** The text the predicate searches: the [areaDesc] string, or the empty
    string when there is none. *)
Definition area_text (f : pyval) : string :=
  match area_desc_of f with
  | Some s => s
  | None => ""
  end.

(** A feature is a mapping; its [properties] entry is absent or a mapping;
    the [areaDesc] entry of that is absent, a string, or a false value
    ([None], [0], [False], an empty list or dict). *)
Definition properties_well_formed (f : pyval) : bool :=
  match f with
  | PDict fi =>
      match dict_lookup fi "properties" with
      | None => true
      | Some (PDict pi) =>
          match dict_lookup pi "areaDesc" with
          | None => true
          | Some (PStr _) => true
          | Some v => negb (py_truth v)
          end
      | Some _ => false
      end
  | _ => false
  end.

(** The first test of the predicate: no county text and no state chosen. *)
Definition no_query (county_q state_q : string) : bool :=
  PyStr.is_empty county_q
  && (PyStr.is_empty state_q || String.eqb state_q ANY).

(** The two substring checks on the lower-cased area text. *)
Definition text_checks (area_desc county_q state_q : string) : bool :=
  (if negb (PyStr.is_empty county_q)
   then PyStr.contains (PyStr.lower (PyStr.strip county_q)) area_desc
   else true)
  && (if state_given state_q
      then PyStr.contains (PyStr.lower state_q) area_desc
      else true).

(** A query that asks for something: the county text has a character that
    is not white space, or a state other than the sentinel is chosen. *)
Definition query_given (county_q state_q : string) : bool :=
  negb (PyStr.is_empty (PyStr.strip county_q)) || state_given state_q.

(** A feature is kept when the predicate returns true on it. *)
Definition keeps (county_q state_q : string) (f : pyval) : bool :=
  match feature_matches_county_state f county_q state_q with
  | Ok true => true
  | _ => false
  end.

(** The geometry mapping of a feature, when the feature is a mapping with
    a [geometry] entry that is a mapping. *)
Definition geometry_of (f : pyval) : option (list (string * pyval)) :=
  match f with
  | PDict fi =>
      match dict_lookup fi "geometry" with
      | Some (PDict gi) => Some gi
      | _ => None
      end
  | _ => None
  end.

(** The geometry types the function knows. *)
Definition supported (gtype : pyval) : bool :=
  py_eq_str gtype "Polygon" || py_eq_str gtype "MultiPolygon"
  || py_eq_str gtype "Point".

Definition is_integer (v : pyval) : bool :=
  match v with
  | PInt _ => true
  | _ => false
  end.


(** The integer an int stands for. *)
Definition integer_value (v : pyval) : Z :=
  match v with
  | PInt z => z
  | _ => 0
  end.

Definition Zsum (l : list Z) : Z := fold_right Z.add 0 l.

(** A vertex [[lon, lat]] of a ring. *)
Definition vertex (p : pyval * pyval) : pyval := PList [fst p; snd p].





(** An entry of a vertex that [+] rejects: neither a number nor a bool. *)
Definition non_numeric (v : pyval) : bool :=
  match as_num v with
  | Some _ => false
  | None => true
  end.

(** A feature the loop passes over without an exception: a mapping whose
    geometry is absent or a false value, or a mapping whose type is none of
    the three, or a [Polygon] whose first ring is empty, or a
    [MultiPolygon] whose coordinates, first polygon or first ring is
    empty. *)
Definition quietly_unusable (f : pyval) : bool :=
  match f with
  | PDict fi =>
      match dict_lookup fi "geometry" with
      | None => true
      | Some (PDict (kv :: gi')) =>
          let gi := kv :: gi' in
          let t := match dict_lookup gi "type" with Some t => t | None => PNone end in
          if py_eq_str t "Polygon" then
            match dict_lookup gi "coordinates" with
            | Some (PList (ring :: _)) => negb (py_truth ring)
            | _ => false
            end
          else if py_eq_str t "MultiPolygon" then
            match dict_lookup gi "coordinates" with
            | None => true
            | Some (PList (PList (r0 :: _) :: _)) => negb (py_truth r0)
            | Some (PList (p0 :: _)) => negb (py_truth p0)
            | Some polys => negb (py_truth polys)
            end
          else negb (py_eq_str t "Point")
      | Some g => negb (py_truth g)
      end
  | _ => false
  end.

(** A ring with an entry that [+] rejects. *)
Definition has_non_numeric (pts : list (pyval * pyval)) : bool :=
  existsb (fun p => non_numeric (fst p) || non_numeric (snd p)) pts.

(** The same feature under a second query that accepts whatever the first
    accepts. *)
Definition at_least_as_wide (c s c' s' : string) : Prop :=
  forall f b,
    feature_matches_county_state f c s = Ok b ->
    exists b', feature_matches_county_state f c' s' = Ok b'
               /\ (b = true -> b' = true).

(** A GeoJSON position: longitude, latitude, and whatever follows them
    (an altitude, say). *)
Definition position (p : pyval * pyval * list pyval) : pyval :=
  PList (fst (fst p) :: snd (fst p) :: snd p).

Definition integer_position (p : pyval * pyval * list pyval) : bool :=
  is_integer (fst (fst p)) && is_integer (snd (fst p)).

(** The sum of the longitudes and the sum of the latitudes of a ring of
    integer positions. *)
Definition position_lon_sum (pts : list (pyval * pyval * list pyval)) : Z :=
  Zsum (map (fun p => integer_value (fst (fst p))) pts).
Definition position_lat_sum (pts : list (pyval * pyval * list pyval)) : Z :=
  Zsum (map (fun p => integer_value (snd (fst p))) pts).

Definition is_list (v : pyval) : bool :=
  match v with
  | PList _ => true
  | _ => false
  end.

(** The zoom of a viewport. *)
Definition zoom_of (v : viewport) : Z := snd v.

(** The environment gives no user agent: the variable is unset or empty. *)
Definition env_gives_nothing (env : option string) : bool :=
  match env with
  | None => true
  | Some s => PyStr.is_empty s
  end.

(** The properties the tooltip is sampled from: the [properties] mapping of
    the feature, empty when the entry is absent, null or empty. *)
Definition sample_properties (first : pyval) : option (list (string * pyval)) :=
  match first with
  | PDict fi =>
      match dict_lookup fi "properties" with
      | None => Some []
      | Some (PDict pi) => Some pi
      | Some v => if py_truth v then None else Some []
      end
  | _ => None
  end.

Definition has_key (items : list (string * pyval)) (k : string) : bool :=
  existsb (fun kv => String.eqb (fst kv) k) items.

(** ** Sample features *)

Definition feature_with (geom : pyval) : pyval :=
  PDict [("type", PStr "Feature");
         ("geometry", geom);
         ("properties", PDict [("areaDesc", PStr "Travis, TX; Hays, TX")])].

(** [{"type": "Point", "coordinates": [-95.0, 29.0]}]. *)
Definition sample_point : pyval :=
  feature_with
    (PDict [("type", PStr "Point");
            ("coordinates", PList [PFloat (float_lit (Qmake (-95) 1)); PFloat (float_lit (Qmake 29 1))])]).

(** [{"type": "Point"}]. *)
Definition bare_point : pyval :=
  feature_with (PDict [("type", PStr "Point")]).

(** [{"type": "LineString", "coordinates": [[-97, 30], [-96, 31]]}]. *)
Definition sample_line : pyval :=
  feature_with
    (PDict [("type", PStr "LineString");
            ("coordinates",
             PList [PList [PInt (-97); PInt 30]; PList [PInt (-96); PInt 31]])]).

Definition square_ring : list (pyval * pyval) :=
  [(PInt (-97), PInt 30); (PInt (-96), PInt 30);
   (PInt (-96), PInt 31); (PInt (-97), PInt 31)].

(** [{"type": "Polygon",
      "coordinates": [[[-97,30],[-96,30],[-96,31],[-97,31]]]}]. *)
Definition sample_polygon : pyval :=
  feature_with
    (PDict [("type", PStr "Polygon");
            ("coordinates", PList [PList (map vertex square_ring)])]).

(** [{"type": "Polygon", "coordinates": [[["a", "b"]]]}]. *)
Definition lettered_polygon : pyval :=
  feature_with
    (PDict [("type", PStr "Polygon");
            ("coordinates", PList [PList [PList [PStr "a"; PStr "b"]]])]).

(** [{"type": "Polygon", "coordinates": [[]]}]. *)
Definition hollow_polygon : pyval :=
  feature_with
    (PDict [("type", PStr "Polygon"); ("coordinates", PList [PList []])]).

(** A feature of the feed without a geometry: ["geometry": null]. *)
Definition zone_alert : pyval := feature_with PNone.

(** [{"type": "MultiPolygon", "coordinates": [[[["a", "b"]]]]}]. *)
Definition lettered_multipolygon : pyval :=
  feature_with
    (PDict [("type", PStr "MultiPolygon");
            ("coordinates", PList [PList [PList [PList [PStr "a"; PStr "b"]]]])]).

Definition triangle : list (pyval * pyval * list pyval) :=
  [(PInt 0, PInt 0, []); (PInt 3, PInt 0, []); (PInt 0, PInt 3, [])].

(** A [MultiPolygon] of two triangles, the first with corners (0,0), (3,0),
    (0,3), the second far away. *)
Definition two_triangles : pyval :=
  feature_with
    (PDict [("type", PStr "MultiPolygon");
            ("coordinates",
             PList [PList [PList (map position triangle)];
                    PList [PList [PList [PInt 50; PInt 50];
                                  PList [PInt 53; PInt 50];
                                  PList [PInt 50; PInt 53]]]])]).

Definition raised_positions : list (pyval * pyval * list pyval) :=
  [(PInt (-97), PInt 30, [PInt 120]); (PInt (-96), PInt 31, [PStr "high"])].

(** [{"type": "Polygon",
      "coordinates": [[[-97, 30, 120], [-96, 31, "high"]]]}]. *)
Definition raised_polygon : pyval :=
  feature_with
    (PDict [("type", PStr "Polygon");
            ("coordinates", PList [PList (map position raised_positions)])]).

(** [{"type": "Point", "coordinates": [-95.0, 29.0, 12]}]. *)
Definition raised_point : pyval :=
  feature_with
    (PDict [("type", PStr "Point");
            ("coordinates",
             PList [PFloat (float_lit (Qmake (-95) 1)); PFloat (float_lit (Qmake 29 1)); PInt 12])]).





(** * Properties *)

(** ** The result monad *)

Lemma bind_raise_l {A B : Type} (m : result A) (k : A -> result B) :
  raises m -> raises (bind m k).
Proof. intros [e ->]. exists e. reflexivity. Qed.

(** ** Strings *)

Module PyStrFacts.
Import PyStr.

Lemma prefix_app (n h : string) :
  String.prefix n h = true <-> exists post, h = n ++ post.
Proof.
  revert h. induction n as [|c n IH]; intros h; simpl.
  - split; [intros _; exists h; reflexivity | destruct h; reflexivity].
  - destruct h as [|d h].
    + split; [discriminate | intros [post H]; discriminate].
    + cbn [String.prefix]. destruct (Ascii.ascii_dec c d) as [->|Hne].
      * rewrite IH. split; intros [post H]; exists post.
        -- now rewrite H.
        -- now injection H.
      * split; [discriminate |].
        intros [post H]. injection H as H1 _. congruence.
Qed.

(** The [in] test decides occurrence as a contiguous block. *)
Lemma contains_occurs (n h : string) :
  contains n h = true <-> occurs_in n h.
Proof.
  unfold occurs_in. induction h as [|d h IH].
  - cbn [contains]. rewrite orb_false_r, prefix_app. split.
    + intros [post H]. exists "", post. exact H.
    + intros [pre [post H]]. destruct pre; simpl in H.
      * exists post. exact H.
      * discriminate.
  - cbn [contains]. rewrite orb_true_iff, prefix_app, IH. split.
    + intros [[post H] | [pre [post H]]].
      * exists "", post. exact H.
      * exists (String d pre), post. simpl. now rewrite H.
    + intros [pre [post H]]. destruct pre as [|c pre]; simpl in H.
      * left. exists post. exact H.
      * right. injection H as _ H. exists pre, post. exact H.
Qed.

Lemma contains_empty_hay (n : string) :
  contains n "" = is_empty n.
Proof. destruct n; reflexivity. Qed.

Lemma lower_empty (s : string) : is_empty (lower s) = is_empty s.
Proof. destruct s; reflexivity. Qed.

End PyStrFacts.

(** ** The matching predicate *)

Section Matching.
Variables (county_q state_q : string).

Lemma matches_no_query (f : pyval) :
  no_query county_q state_q = true ->
  feature_matches_county_state f county_q state_q = Ok true.
Proof.
  unfold feature_matches_county_state, no_query. intros ->. reflexivity.
Qed.

(** On well-formed properties the predicate returns, and its value is
    the two checks run on the lower-cased area text. *)
Lemma matches_well_formed (f : pyval) :
  properties_well_formed f = true ->
  no_query county_q state_q = false ->
  feature_matches_county_state f county_q state_q
  = Ok (text_checks (PyStr.lower (area_text f)) county_q state_q).
Proof.
  unfold feature_matches_county_state, no_query, area_text. intros Hwf ->.
  destruct f as [| | | | |l|fi]; try discriminate Hwf.
  cbn [properties_well_formed area_desc_of py_get bind] in *.
  destruct (dict_lookup fi "properties") as [p|]; cbn [bind].
  - destruct p as [| | | | |l|pi]; try discriminate Hwf.
    cbn [py_get bind].
    destruct (dict_lookup pi "areaDesc") as [a|]; [|reflexivity].
    destruct a as [|b|z|q|s|l|d]; cbn [bind] in *;
      unfold py_or_empty_lower, py_or;
      try (apply negb_true_iff in Hwf; rewrite Hwf); try reflexivity.
    destruct s; reflexivity.
  - reflexivity.
Qed.

(** Outside that shape the predicate raises as soon as it is asked to
    look at the feature. *)
Lemma matches_ill_formed (f : pyval) :
  properties_well_formed f = false ->
  no_query county_q state_q = false ->
  feature_matches_county_state f county_q state_q = Raise AttributeError.
Proof.
  unfold feature_matches_county_state, no_query. intros Hwf ->.
  destruct f as [| | | | |l|fi]; try reflexivity.
  cbn [properties_well_formed py_get bind] in *.
  destruct (dict_lookup fi "properties") as [p|]; [|discriminate Hwf].
  destruct p as [| | | | |l|pi]; try reflexivity.
  cbn [py_get bind].
  destruct (dict_lookup pi "areaDesc") as [a|]; [|discriminate Hwf].
  destruct a as [|b|z|q|s|l|d]; try discriminate Hwf; cbn [bind] in *;
    unfold py_or_empty_lower, py_or;
    apply negb_false_iff in Hwf; rewrite Hwf; reflexivity.
Qed.

End Matching.

Lemma ill_formed_no_area_desc (f : pyval) :
  properties_well_formed f = false -> area_desc_of f = None.
Proof.
  destruct f as [| | | | |l|fi]; try reflexivity. simpl.
  destruct (dict_lookup fi "properties") as [p|]; [|discriminate].
  destruct p as [| | | | |l|pi]; try reflexivity.
  destruct (dict_lookup pi "areaDesc") as [a|]; [|discriminate].
  destruct a; try reflexivity. discriminate.
Qed.

(** C4. With an empty county query and a state query that is empty or the
    sentinel ["(Any)"], the predicate returns true for every feature,
    whatever the feature is: the test comes before the first look at it.
    In particular [matches(f, "", "")] is true, also for a feature without
    properties. *)
Theorem matches_without_query (f : pyval) :
  feature_matches_county_state f "" "" = Ok true
  /\ feature_matches_county_state f "" "(Any)" = Ok true.
Proof. split; reflexivity. Qed.

(** C5. [matches(f, "travis", "(Any)")] returns true exactly when the
    properties of [f] hold an [areaDesc] string whose lower-cased text
    contains ["travis"]; a feature without one never matches. *)
Theorem matches_travis_any (f : pyval) :
  feature_matches_county_state f "travis" "(Any)" = Ok true
  <-> exists s, area_desc_of f = Some s
                /\ PyStr.occurs_in "travis" (PyStr.lower s).
Proof.
  destruct (properties_well_formed f) eqn:Hwf.
  - rewrite (matches_well_formed "travis" "(Any)" f Hwf eq_refl).
    change (text_checks (PyStr.lower (area_text f)) "travis" "(Any)")
      with (PyStr.contains "travis" (PyStr.lower (area_text f)) && true).
    rewrite andb_true_r. unfold area_text.
    destruct (area_desc_of f) as [s|].
    + split.
      * intros H. injection H as H. exists s. split; [reflexivity|].
        now apply PyStrFacts.contains_occurs.
      * intros [s' [[= <-] H]]. f_equal.
        now apply PyStrFacts.contains_occurs.
    + split; [discriminate | intros [s [H _]]; discriminate].
  - rewrite (matches_ill_formed "travis" "(Any)" f Hwf eq_refl).
    rewrite (ill_formed_no_area_desc f Hwf).
    split; [discriminate | intros [s [H _]]; discriminate].
Qed.

(** A feature of Travis county matches; the text is found after
    lower-casing. *)
Lemma matches_travis_any_witness :
  feature_matches_county_state sample_point "travis" "(Any)" = Ok true.
Proof.
  apply (proj2 (matches_travis_any sample_point)).
  exists "Travis, TX; Hays, TX". split; [reflexivity|].
  exists "", ", tx; hays, tx". reflexivity.
Defined.

(** C2, as the code has it.  On a feature with well-formed properties (a
    mapping whose [properties] entry is absent or a mapping, with an
    [areaDesc] that is absent, a string or a false value) the predicate
    never raises; and when such a feature has no area text, it returns
    false for every query that asks for something (a county text with a
    character other than white space, or a state other than ["(Any)"]). *)
Theorem matches_degrades_to_no_match (f : pyval) (county_q state_q : string) :
  properties_well_formed f = true ->
  returns (feature_matches_county_state f county_q state_q)
  /\ (area_text f = "" -> query_given county_q state_q = true ->
      feature_matches_county_state f county_q state_q = Ok false).
Proof.
  intros Hwf. destruct (no_query county_q state_q) eqn:Hq.
  - split.
    + exists true. now apply matches_no_query.
    + intros _ Hg. exfalso. revert Hq Hg. unfold no_query, query_given, state_given.
      destruct county_q; [|discriminate]. simpl.
      destruct (PyStr.is_empty state_q), (String.eqb state_q ANY); discriminate.
  - rewrite (matches_well_formed county_q state_q f Hwf Hq). split.
    + eexists. reflexivity.
    + intros -> Hg. f_equal. unfold text_checks. cbn [PyStr.lower].
      rewrite !PyStrFacts.contains_empty_hay, !PyStrFacts.lower_empty.
      unfold query_given in Hg.
      destruct (state_given state_q) eqn:Hs.
      * unfold state_given in Hs. apply andb_true_iff in Hs as [Hs _].
        apply negb_true_iff in Hs. rewrite Hs. apply andb_false_r.
      * rewrite orb_false_r in Hg.
        assert (Hc : PyStr.is_empty county_q = false).
        { destruct county_q; [discriminate Hg | reflexivity]. }
        rewrite Hc. cbn [negb]. apply negb_true_iff in Hg. rewrite Hg. reflexivity.
Qed.

(** A feature without properties, asked for a county. *)
Lemma matches_degrades_to_no_match_witness :
  returns (feature_matches_county_state (PDict []) "travis" "(Any)")
  /\ feature_matches_county_state (PDict []) "travis" "(Any)" = Ok false.
Proof.
  pose proof (matches_degrades_to_no_match (PDict []) "travis" "(Any)" eq_refl)
    as [H1 H2].
  split; [exact H1 | exact (H2 eq_refl eq_refl)].
Defined.

(** C2 fails as stated: an [areaDesc] that is a number makes the predicate
    raise, and a county query of one blank matches a feature that has no
    properties at all. *)
Lemma matches_raises_or_matches :
  feature_matches_county_state
    (PDict [("properties", PDict [("areaDesc", PInt 5)])]) "travis" "(Any)"
  = Raise AttributeError
  /\ feature_matches_county_state (PDict []) " " "(Any)" = Ok true.
Proof. split; reflexivity. Qed.

(** ** The filter *)

Section Filter.
Variables (county_q state_q : string).

Lemma filter_items_outcome (items : list pyval) :
  match filter_items items county_q state_q with
  | Ok kept =>
      kept = List.filter (keeps county_q state_q) items
      /\ Forall (fun f => returns (feature_matches_county_state f county_q state_q))
           items
  | Raise e =>
      Exists (fun f => feature_matches_county_state f county_q state_q = Raise e)
        items
  end.
Proof.
  induction items as [|f rest IH]; cbn [filter_items List.filter].
  - split; [reflexivity | constructor].
  - unfold keeps at 1.
    destruct (feature_matches_county_state f county_q state_q) as [b|e] eqn:Hf;
      cbn [bind].
    + destruct (filter_items rest county_q state_q) as [kept|e]; cbn [bind].
      * destruct IH as [-> Hall]. split.
        -- destruct b; reflexivity.
        -- constructor; [exists b; exact Hf | exact Hall].
      * now apply Exists_cons_tl.
    + now apply Exists_cons_hd.
Qed.

Lemma filter_sublist (keep : pyval -> bool) (l : list pyval) :
  sublist (List.filter keep l) l.
Proof.
  induction l as [|x l IH]; cbn [List.filter].
  - constructor.
  - destruct (keep x); now constructor.
Qed.

End Filter.

(** C3. The list the comprehension builds is a subsequence of the feature
    list: it is the list of the features on which the predicate returns
    true, in the order of the input, so each of its elements is an element
    of the input, unchanged.  The comprehension builds no list only when
    the predicate raises on some feature.  Features are values here and
    the predicate is a function of its arguments: it reads the feature
    (with [get], [or], [lower], [strip], [in]) and writes nowhere. *)
Theorem filter_is_subsequence (L : list pyval) (county_q state_q : string) :
  match filter_features (PList L) county_q state_q with
  | Ok kept =>
      sublist kept L
      /\ (forall f, f ∈ kept -> f ∈ L)
      /\ kept = List.filter (keeps county_q state_q) L
  | Raise e =>
      Exists (fun f => feature_matches_county_state f county_q state_q = Raise e) L
  end.
Proof.
  unfold filter_features. cbn [py_iter bind].
  pose proof (filter_items_outcome county_q state_q L) as H.
  destruct (filter_items L county_q state_q) as [kept|e]; [|exact H].
  destruct H as [-> _].
  pose proof (filter_sublist (keeps county_q state_q) L) as Hsub.
  split; [exact Hsub | split; [|reflexivity]].
  intros f Hf. eapply elem_of_sublist; eassumption.
Qed.

(** Three features, the second without properties: a query for Travis
    keeps the first and the third, in that order. *)
Lemma filter_is_subsequence_witness :
  sublist [sample_point; sample_polygon]
    [sample_point; PDict [("geometry", PNone)]; sample_polygon]
  /\ (forall f,
        f ∈ [sample_point; sample_polygon] ->
        f ∈ [sample_point; PDict [("geometry", PNone)]; sample_polygon])
  /\ [sample_point; sample_polygon]
     = List.filter (keeps "Travis" "TX")
         [sample_point; PDict [("geometry", PNone)]; sample_polygon].
Proof.
  exact (filter_is_subsequence
           [sample_point; PDict [("geometry", PNone)]; sample_polygon]
           "Travis" "TX").
Defined.

(** ** The scan over the features *)

Section Scan.
Variables (f : pyval) (rest : list pyval).

Lemma center_try_cons :
  center_try (feature_collection (PList (f :: rest)))
  = scan_features (f :: rest).
Proof. reflexivity. Qed.

(** A feature whose turn returns decides the result. *)
Lemma compute_cons_found (v : viewport) :
  feature_step f = Ok (Some v) ->
  compute_initial_map_center (feature_collection (PList (f :: rest))) = v.
Proof.
  intros H. unfold compute_initial_map_center. rewrite center_try_cons.
  cbn [scan_features]. rewrite H. reflexivity.
Qed.

(** A feature whose turn falls out of the chain leaves the result to the
    features after it. *)
Lemma compute_cons_skipped :
  feature_step f = Ok None ->
  compute_initial_map_center (feature_collection (PList (f :: rest)))
  = compute_initial_map_center (feature_collection (PList rest)).
Proof.
  intros H. unfold compute_initial_map_center. rewrite center_try_cons.
  cbn [scan_features]. rewrite H. reflexivity.
Qed.

(** A feature whose turn raises ends the scan: the handler is outside
    the loop. *)
Lemma compute_cons_raised :
  raises (feature_step f) ->
  compute_initial_map_center (feature_collection (PList (f :: rest)))
  = conus_fallback.
Proof.
  intros [e H]. unfold compute_initial_map_center. rewrite center_try_cons.
  cbn [scan_features]. rewrite H. reflexivity.
Qed.

End Scan.

(** The turn of a feature that has a geometry mapping with a [type]. *)
Lemma feature_step_geometry (f : pyval) (gi : list (string * pyval)) (t : pyval) :
  geometry_of f = Some gi ->
  dict_lookup gi "type" = Some t ->
  feature_step f = geometry_center (PDict gi) t.
Proof.
  unfold geometry_of, feature_step. intros Hg Ht.
  destruct f as [| | | | |l|fi]; try discriminate Hg.
  cbn [py_get]. destruct (dict_lookup fi "geometry") as [g|]; [|discriminate Hg].
  destruct g as [| | | | |l|gj]; try discriminate Hg.
  injection Hg as ->. cbn [bind]. unfold py_or.
  destruct gi as [|kv gi]; [discriminate Ht|].
  cbn [py_truth py_get]. rewrite Ht. reflexivity.
Qed.

(** The turn of a feature whose geometry is absent or a false value. *)
Lemma feature_step_no_geometry (fi : list (string * pyval)) :
  match dict_lookup fi "geometry" with
  | Some g => py_truth g = false
  | None => True
  end ->
  feature_step (PDict fi) = Ok None.
Proof.
  unfold feature_step. cbn [py_get].
  destruct (dict_lookup fi "geometry") as [g|]; cbn [bind]; unfold py_or.
  - intros ->. reflexivity.
  - intros _. reflexivity.
Qed.

Lemma geometry_center_unsupported (geom t : pyval) :
  supported t = false -> geometry_center geom t = Ok None.
Proof.
  unfold supported, geometry_center. intros H.
  apply orb_false_iff in H as [H H3]. apply orb_false_iff in H as [H1 H2].
  rewrite H1, H2, H3. reflexivity.
Qed.

(** ** The viewport of the first features *)

(** C7. For a collection without features the viewport is the CONUS
    fallback: latitude 39.833, longitude -98.583, zoom 4. *)
Theorem empty_collection_viewport :
  compute_initial_map_center (feature_collection (PList []))
  = (PFloat (float_lit (Qmake 39833 1000)), PFloat (float_lit (Qmake (-98583) 1000)), 4).
Proof. reflexivity. Qed.

(** C8. When the first feature is a [Point], the viewport is the point
    itself at zoom 6: coordinates [[lon, lat]] give [(lat, lon, 6)], so
    [[-95.0, 29.0]] gives [(29.0, -95.0, 6)].  When the geometry has no
    [coordinates] entry the default pair stands in and the viewport is
    [(39.833, -98.583, 6)]. *)
Theorem point_viewport (f : pyval) (gi : list (string * pyval)) (rest : list pyval) :
  geometry_of f = Some gi ->
  dict_lookup gi "type" = Some (PStr "Point") ->
  (forall lon lat,
      dict_lookup gi "coordinates" = Some (PList [lon; lat]) ->
      compute_initial_map_center (feature_collection (PList (f :: rest)))
      = (lat, lon, 6))
  /\ (dict_lookup gi "coordinates" = None ->
      compute_initial_map_center (feature_collection (PList (f :: rest)))
      = (PFloat (float_lit (Qmake 39833 1000)), PFloat (float_lit (Qmake (-98583) 1000)), 6)).
Proof.
  intros Hg Ht. split.
  - intros lon lat Hc. apply compute_cons_found.
    rewrite (feature_step_geometry f gi _ Hg Ht).
    unfold geometry_center. cbn [py_eq_str String.eqb Ascii.eqb Bool.eqb py_get].
    rewrite Hc. reflexivity.
  - intros Hc. apply compute_cons_found.
    rewrite (feature_step_geometry f gi _ Hg Ht).
    unfold geometry_center. cbn [py_eq_str String.eqb Ascii.eqb Bool.eqb py_get].
    rewrite Hc. reflexivity.
Qed.

(** The point [[-95.0, 29.0]], and a point without coordinates. *)
Lemma point_viewport_witness :
  compute_initial_map_center (feature_collection (PList [sample_point]))
  = (PFloat (float_lit (Qmake 29 1)), PFloat (float_lit (Qmake (-95) 1)), 6)
  /\ compute_initial_map_center (feature_collection (PList [bare_point]))
     = (PFloat (float_lit (Qmake 39833 1000)), PFloat (float_lit (Qmake (-98583) 1000)), 6).
Proof.
  split.
  - exact (proj1 (point_viewport sample_point _ [] eq_refl eq_refl) _ _ eq_refl).
  - exact (proj2 (point_viewport bare_point _ [] eq_refl eq_refl) eq_refl).
Defined.

(** C9. A feature whose geometry has a type other than [Polygon],
    [MultiPolygon] and [Point] (a [LineString], say) is skipped: the
    viewport is that of the features after it, and, when it is the only
    feature, the CONUS fallback. *)
Theorem unsupported_type_skipped
    (f : pyval) (gi : list (string * pyval)) (t : pyval) (rest : list pyval) :
  geometry_of f = Some gi ->
  dict_lookup gi "type" = Some t ->
  supported t = false ->
  compute_initial_map_center (feature_collection (PList (f :: rest)))
  = compute_initial_map_center (feature_collection (PList rest))
  /\ compute_initial_map_center (feature_collection (PList [f]))
     = (PFloat (float_lit (Qmake 39833 1000)), PFloat (float_lit (Qmake (-98583) 1000)), 4).
Proof.
  intros Hg Ht Hu.
  assert (Hstep : feature_step f = Ok None).
  { rewrite (feature_step_geometry f gi t Hg Ht).
    now apply geometry_center_unsupported. }
  split.
  - now apply compute_cons_skipped.
  - rewrite (compute_cons_skipped f [] Hstep). reflexivity.
Qed.

(** A [LineString] in front of a point, and a [LineString] alone. *)
Lemma unsupported_type_skipped_witness :
  compute_initial_map_center
    (feature_collection (PList [sample_line; sample_point]))
  = compute_initial_map_center (feature_collection (PList [sample_point]))
  /\ compute_initial_map_center (feature_collection (PList [sample_line]))
     = (PFloat (float_lit (Qmake 39833 1000)), PFloat (float_lit (Qmake (-98583) 1000)), 4).
Proof.
  exact (unsupported_type_skipped sample_line _ (PStr "LineString")
           [sample_point] eq_refl eq_refl eq_refl).
Defined.

(** ** The centre of a ring *)

Section RingSums.
Variables (T : Type) (mk : T -> pyval) (i : nat) (pick : T -> pyval).
Hypothesis pick_index : forall p, py_index (mk p) i = Ok (pick p).

(** On ints the loop of [sum] is exact: its total is the sum. *)
Lemma sum_items_integers (pts : list T) :
  forall a,
    forallb (fun p => is_integer (pick p)) pts = true ->
    sum_items i (NInt a) (map mk pts)
    = Ok (NInt (a + Zsum (map (fun p => integer_value (pick p)) pts))).
Proof.
  induction pts as [|p pts IH]; intros a Hall; cbn [map sum_items Zsum fold_right].
  - now rewrite Z.add_0_r.
  - cbn [forallb] in Hall. apply andb_true_iff in Hall as [Hp Hall].
    rewrite pick_index. cbn [bind].
    destruct (pick p) as [|b|z|x|s|l|d]; try discriminate Hp.
    cbn [num_add as_num bind integer_value]. rewrite (IH _ Hall).
    unfold Zsum. now rewrite Z.add_assoc.
Qed.



(** A vertex whose entry at place [i] is rejected by [+] makes the loop
    raise, at that vertex or before it. *)
Lemma sum_items_non_numeric (pts : list T) :
  forall acc,
    existsb (fun p => non_numeric (pick p)) pts = true ->
    raises (sum_items i acc (map mk pts)).
Proof.
  induction pts as [|p pts IH]; intros acc Hex; [discriminate|].
  cbn [existsb] in Hex. cbn [map sum_items]. rewrite pick_index. cbn [bind].
  destruct (num_add acc (pick p)) as [acc'|e] eqn:Hadd;
    [|exists e; reflexivity].
  cbn [bind]. apply IH.
  unfold num_add, non_numeric in *.
  destruct (as_num (pick p)); [exact Hex | discriminate Hadd].
Qed.

End RingSums.

Section RingCenter.
Variables (T : Type) (mk : T -> pyval) (lon lat : T -> pyval).
Hypothesis lon_index : forall p, py_index (mk p) 0 = Ok (lon p).
Hypothesis lat_index : forall p, py_index (mk p) 1 = Ok (lat p).

Lemma made_ring_truth (pts : list T) :
  pts <> [] -> py_truth (PList (map mk pts)) = true.
Proof. destruct pts; [congruence | reflexivity]. Qed.

(** The centre of a non-empty ring of ints: the two sums are exact, and
    each is divided once by the number of vertices. *)
Lemma ring_center_integers (pts : list T) :
  pts <> [] ->
  forallb (fun p => is_integer (lon p) && is_integer (lat p)) pts = true ->
  ring_center (PList (map mk pts))
  = (let! x := int_true_div (Zsum (map (fun p => integer_value (lon p)) pts))
                 (Z.of_nat (length pts)) in
     let! y := int_true_div (Zsum (map (fun p => integer_value (lat p)) pts))
                 (Z.of_nat (length pts)) in
     Ok (PFloat y, PFloat x, 6)).
Proof.
  intros Hne Hall.
  assert (H : forallb (fun p => is_integer (lon p)) pts = true
              /\ forallb (fun p => is_integer (lat p)) pts = true).
  { clear Hne. induction pts as [|p pts IH]; cbn [forallb] in *; [auto|].
    rewrite !andb_true_iff in *. destruct Hall as [[H1 H2] H].
    destruct (IH H). auto. }
  destruct H as [Hlon Hlat].
  unfold ring_center, sum_component. cbn [py_iter py_len bind].
  rewrite (sum_items_integers T mk 0 lon lon_index pts 0 Hlon).
  rewrite (sum_items_integers T mk 1 lat lat_index pts 0 Hlat).
  cbn [bind]. rewrite length_map, !Z.add_0_l.
  destruct pts as [|p pts]; [congruence|].
  cbn [length num_div].
  destruct (int_true_div _ _) as [x|e]; cbn [bind]; [|reflexivity].
  destruct (int_true_div _ _) as [y|e]; reflexivity.
Qed.


End RingCenter.

Lemma ring_truth (pts : list (pyval * pyval)) :
  pts <> [] -> py_truth (PList (map vertex pts)) = true.
Proof. destruct pts; [congruence | reflexivity]. Qed.

(** The turn of a feature that is a [Polygon] with a first ring that is
    not empty. *)
Lemma polygon_step (f : pyval) (gi : list (string * pyval))
    (ring : pyval) (more : list pyval) :
  geometry_of f = Some gi ->
  dict_lookup gi "type" = Some (PStr "Polygon") ->
  dict_lookup gi "coordinates" = Some (PList (ring :: more)) ->
  py_truth ring = true ->
  feature_step f = (let! v := ring_center ring in Ok (Some v)).
Proof.
  intros Hg Ht Hc Hr.
  rewrite (feature_step_geometry f gi _ Hg Ht).
  unfold geometry_center. cbn [py_eq_str String.eqb Ascii.eqb Bool.eqb py_get].
  rewrite Hc. cbn [bind py_index nth_error]. now rewrite Hr.
Qed.

(** What the scan returns once the turn of the first feature is the
    centre of a ring. *)
Lemma compute_cons_ring (f : pyval) (rest : list pyval) (ring : pyval) :
  feature_step f = (let! v := ring_center ring in Ok (Some v)) ->
  compute_initial_map_center (feature_collection (PList (f :: rest)))
  = match ring_center ring with
    | Ok v => v
    | Raise _ => conus_fallback
    end.
Proof.
  intros H. unfold compute_initial_map_center. rewrite center_try_cons.
  cbn [scan_features]. rewrite H.
  destruct (ring_center ring); reflexivity.
Qed.

(** The viewport that the two quotients of a ring of ints give. *)
Lemma integer_ring_viewport (sx sy n : Z) :
  match (let! x := int_true_div sx n in
         let! y := int_true_div sy n in
         Ok (PFloat y, PFloat x, 6)) with
  | Ok v => v
  | Raise _ => conus_fallback
  end
  = match int_true_div sx n, int_true_div sy n with
    | Ok x, Ok y => (PFloat y, PFloat x, 6)
    | _, _ => conus_fallback
    end.
Proof.
  destruct (int_true_div sx n); cbn [bind]; [|reflexivity].
  destruct (int_true_div sy n); reflexivity.
Qed.




(** ** Features that cannot be used *)

(** The loop passes over a quietly unusable feature. *)
Lemma quietly_unusable_step (f : pyval) :
  quietly_unusable f = true -> feature_step f = Ok None.
Proof.
  destruct f as [| | | | |l|fi]; try discriminate.
  cbn [quietly_unusable].
  destruct (dict_lookup fi "geometry") as [g|] eqn:Hgeo;
    [|intros _; apply feature_step_no_geometry; now rewrite Hgeo].
  destruct g as [|b|z|q|s|l|[|kv gi']];
    try (intros H; apply negb_true_iff in H;
         apply feature_step_no_geometry; now rewrite Hgeo).
  set (gi := kv :: gi'). unfold feature_step. cbn [py_get]. rewrite Hgeo.
  cbn [bind]. unfold py_or. cbn [py_truth py_get]. fold gi.
  destruct (dict_lookup gi "type") as [t|]; cbn [bind];
    [|intros _; reflexivity].
  unfold geometry_center.
  destruct (py_eq_str t "Polygon").
  { cbn [py_get]. destruct (dict_lookup gi "coordinates") as [c|]; [|discriminate].
    destruct c as [| | | | |[|ring l]|]; try discriminate.
    cbn [bind py_index nth_error]. intros H. apply negb_true_iff in H.
    now rewrite H. }
  destruct (py_eq_str t "MultiPolygon").
  { cbn [py_get]. destruct (dict_lookup gi "coordinates") as [c|];
      [|intros _; reflexivity].
    cbn [bind].
    destruct c as [|b|z|q|s|[|p0 l]|d]; intros H;
      try (apply negb_true_iff in H; now rewrite H); try reflexivity.
    cbn [py_truth]. cbn [py_index nth_error bind].
    destruct p0 as [|b|z|q|s|[|r0 l0]|d];
      try (apply negb_true_iff in H; now rewrite H); try reflexivity.
    cbn [py_truth py_index nth_error bind].
    apply negb_true_iff in H. now rewrite H. }
  intros H. apply negb_true_iff in H. now rewrite H.
Qed.

(** A ring with an entry that [+] rejects has no centre: one of the two
    sums raises. *)
Lemma ring_center_non_numeric (pts : list (pyval * pyval)) :
  has_non_numeric pts = true -> raises (ring_center (PList (map vertex pts))).
Proof.
  intros Hex. unfold ring_center, sum_component. cbn [py_iter py_len bind].
  destruct (sum_items 0 (NInt 0) (map vertex pts)) as [s0|e] eqn:Hs0;
    [|exists e; reflexivity].
  cbn [bind]. rewrite length_map.
  destruct (num_div s0 (length pts)) as [lon|e]; [|exists e; reflexivity].
  cbn [bind].
  assert (Hsnd : existsb (fun p => non_numeric (snd p)) pts = true).
  { destruct (existsb (fun p => non_numeric (snd p)) pts) eqn:E;
      [reflexivity|].
    assert (Hfst : existsb (fun p => non_numeric (fst p)) pts = true).
    { unfold has_non_numeric in Hex. revert Hex E.
      generalize pts. intros l. induction l as [|x l IH]; [discriminate|].
      cbn [existsb]. rewrite !orb_true_iff, !orb_false_iff.
      intros [[H|H]|H] [E1 E2]; auto; congruence. }
    destruct (sum_items_non_numeric _ vertex 0 fst (fun p => eq_refl) pts
                (NInt 0) Hfst) as [e He].
    congruence. }
  destruct (sum_items_non_numeric _ vertex 1 snd (fun p => eq_refl) pts
              (NInt 0) Hsnd) as [e ->].
  exists e. reflexivity.
Qed.

(** C1, as the code has it.  No exception leaves the function: when its
    body raises, the result is the CONUS fallback.  A feature that is
    unusable without an exception (no geometry, a type that is none of the
    three, an empty first ring) is passed over and the features after it
    decide.  A [Polygon] whose first ring has an entry that is not a number
    raises inside the one [try] around the whole loop: the scan ends and
    the result is the CONUS fallback, whatever features follow. *)
Theorem unusable_features :
  (forall g, raises (center_try g) ->
             compute_initial_map_center g = conus_fallback)
  /\ (forall f rest,
        quietly_unusable f = true ->
        compute_initial_map_center (feature_collection (PList (f :: rest)))
        = compute_initial_map_center (feature_collection (PList rest)))
  /\ (forall f gi pts more rest,
        geometry_of f = Some gi ->
        dict_lookup gi "type" = Some (PStr "Polygon") ->
        dict_lookup gi "coordinates"
        = Some (PList (PList (map vertex pts) :: more)) ->
        has_non_numeric pts = true ->
        compute_initial_map_center (feature_collection (PList (f :: rest)))
        = conus_fallback).
Proof.
  split; [|split].
  - intros g [e H]. unfold compute_initial_map_center. now rewrite H.
  - intros f rest H. apply compute_cons_skipped. now apply quietly_unusable_step.
  - intros f gi pts more rest Hg Ht Hc Hbad. apply compute_cons_raised.
    rewrite (feature_step_geometry f gi _ Hg Ht).
    unfold geometry_center. cbn [py_eq_str String.eqb Ascii.eqb Bool.eqb py_get].
    rewrite Hc. cbn [bind py_index nth_error].
    assert (Hne : pts <> []) by (intros ->; discriminate Hbad).
    rewrite (ring_truth pts Hne).
    now apply bind_raise_l, ring_center_non_numeric.
Qed.

(** A feed that is no mapping; a polygon with an empty ring and a feature
    without geometry in front of a point; a polygon with letters for
    coordinates in front of the same point. *)
Lemma unusable_features_witness :
  compute_initial_map_center (PStr "oops") = conus_fallback
  /\ compute_initial_map_center
       (feature_collection (PList [hollow_polygon; zone_alert; sample_point]))
     = (PFloat (float_lit (Qmake 29 1)), PFloat (float_lit (Qmake (-95) 1)), 6)
  /\ compute_initial_map_center
       (feature_collection (PList [lettered_polygon; sample_point]))
     = conus_fallback.
Proof.
  destruct unusable_features as (Hraise & Hskip & Hbad).
  split; [|split].
  - apply Hraise. exists AttributeError. reflexivity.
  - rewrite (Hskip hollow_polygon _ eq_refl), (Hskip zone_alert _ eq_refl).
    reflexivity.
  - exact (Hbad lettered_polygon _ [(PStr "a", PStr "b")] [] [sample_point]
             eq_refl eq_refl eq_refl eq_refl).
Defined.

(** C1 fails as stated: a usable point after a polygon with letters for
    coordinates does not decide the viewport; the result is the fallback,
    not the viewport of the point. *)
Lemma later_feature_does_not_decide :
  compute_initial_map_center
    (feature_collection (PList [lettered_polygon; sample_point]))
  = (PFloat (float_lit (Qmake 39833 1000)), PFloat (float_lit (Qmake (-98583) 1000)), 4)
  /\ compute_initial_map_center (feature_collection (PList [sample_point]))
     = (PFloat (float_lit (Qmake 29 1)), PFloat (float_lit (Qmake (-95) 1)), 6)
  /\ compute_initial_map_center
       (feature_collection (PList [lettered_polygon; sample_point]))
     <> compute_initial_map_center (feature_collection (PList [sample_point])).
Proof. repeat split; try reflexivity. discriminate. Qed.

(** ** The viewport of the map *)

(** C10, as the code has it.  When the filter keeps no feature, the
    viewport is computed from the whole feature list of the feed; when it
    keeps some, from the kept ones; when the feed has no features, the
    viewport is the CONUS fallback.  (The fallback is also what any list
    without a usable geometry gives.) *)
Theorem viewport_uses_all_when_none_kept
    (alerts_geojson : pyval) (all : list pyval) (county_q state_q : string) :
  py_get alerts_geojson "features" (PList []) = Ok (PList all) ->
  (filter_features (PList all) county_q state_q = Ok [] ->
   map_viewport alerts_geojson county_q state_q
   = Ok (compute_initial_map_center (feature_collection (PList all))))
  /\ (forall kept,
        kept <> [] ->
        filter_features (PList all) county_q state_q = Ok kept ->
        map_viewport alerts_geojson county_q state_q
        = Ok (compute_initial_map_center (feature_collection (PList kept))))
  /\ (all = [] ->
      map_viewport alerts_geojson county_q state_q
      = Ok (PFloat (float_lit (Qmake 39833 1000)), PFloat (float_lit (Qmake (-98583) 1000)), 4)).
Proof.
  intros Hget. unfold map_viewport. rewrite Hget. cbn [bind].
  split; [|split].
  - intros ->. reflexivity.
  - intros kept Hne ->. cbn [bind]. unfold features_or, py_or.
    destruct kept; [congruence | reflexivity].
  - intros ->. reflexivity.
Qed.

(** A feed with one point in Travis county: a query for Dallas keeps
    nothing and the map opens on the point; a query for Travis keeps the
    point; an empty feed opens on the fallback. *)
Lemma viewport_uses_all_when_none_kept_witness :
  map_viewport (feature_collection (PList [sample_point])) "Dallas" "(Any)"
  = Ok (PFloat (float_lit (Qmake 29 1)), PFloat (float_lit (Qmake (-95) 1)), 6)
  /\ map_viewport (feature_collection (PList [sample_point])) "Travis" "TX"
     = Ok (PFloat (float_lit (Qmake 29 1)), PFloat (float_lit (Qmake (-95) 1)), 6)
  /\ map_viewport (feature_collection (PList [])) "Travis" "TX"
     = Ok (PFloat (float_lit (Qmake 39833 1000)), PFloat (float_lit (Qmake (-98583) 1000)), 4).
Proof.
  split; [|split].
  - exact (proj1 (viewport_uses_all_when_none_kept
                    (feature_collection (PList [sample_point])) [sample_point]
                    "Dallas" "(Any)" eq_refl) eq_refl).
  - refine (proj1 (proj2 (viewport_uses_all_when_none_kept
                    (feature_collection (PList [sample_point])) [sample_point]
                    "Travis" "TX" eq_refl)) [sample_point] _ eq_refl).
    discriminate.
  - exact (proj2 (proj2 (viewport_uses_all_when_none_kept
                    (feature_collection (PList [])) [] "Travis" "TX" eq_refl))
             eq_refl).
Defined.

(** C10 fails as stated: the fallback opens the map although neither list
    is empty.  The feed holds one alert without a geometry; with no query
    the filter keeps it and the viewport is the fallback. *)
Lemma fallback_with_features_present :
  filter_features (PList [zone_alert]) "" "(Any)" = Ok [zone_alert]
  /\ map_viewport (feature_collection (PList [zone_alert])) "" "(Any)"
     = Ok (PFloat (float_lit (Qmake 39833 1000)), PFloat (float_lit (Qmake (-98583) 1000)), 4).
Proof. split; reflexivity. Qed.

(** ** Two inputs next to the statements above *)

(** A feature with ["properties": null]: [get] hands back [None], which
    has no [get] of its own. *)
Example matches_null_properties :
  feature_matches_county_state (PDict [("properties", PNone)]) "travis" "(Any)"
  = Raise AttributeError.
Proof. reflexivity. Qed.

(** A [Polygon] with ["coordinates": []]: the index [[0]] raises, the scan
    ends, and the point after it is not looked at. *)
Example polygon_without_rings :
  feature_step
    (feature_with (PDict [("type", PStr "Polygon"); ("coordinates", PList [])]))
  = Raise IndexError
  /\ compute_initial_map_center
       (feature_collection
          (PList [feature_with
                    (PDict [("type", PStr "Polygon"); ("coordinates", PList [])]);
                  sample_point]))
     = conus_fallback.
Proof. split; reflexivity. Qed.


(** * More on the matching predicate *)

Module PyStrCase.
Import PyStr.

Lemma lower_char_idem (c : ascii) : lower_char (lower_char c) = lower_char c.
Proof.
  destruct c as [b0 b1 b2 b3 b4 b5 b6 b7].
  destruct b0, b1, b2, b3, b4, b5, b6, b7; reflexivity.
Qed.

Lemma is_space_lower_char (c : ascii) : is_space (lower_char c) = is_space c.
Proof.
  destruct c as [b0 b1 b2 b3 b4 b5 b6 b7].
  destruct b0, b1, b2, b3, b4, b5, b6, b7; reflexivity.
Qed.

Lemma lower_idem (s : string) : lower (lower s) = lower s.
Proof.
  induction s as [|c s IH]; cbn [lower]; [reflexivity|].
  now rewrite lower_char_idem, IH.
Qed.

Lemma lstrip_lower (s : string) : lstrip (lower s) = lower (lstrip s).
Proof.
  induction s as [|c s IH]; cbn [lower lstrip]; [reflexivity|].
  rewrite is_space_lower_char. destruct (is_space c); [exact IH | reflexivity].
Qed.

Lemma rstrip_lower (s : string) : rstrip (lower s) = lower (rstrip s).
Proof.
  induction s as [|c s IH]; cbn [lower rstrip]; [reflexivity|].
  rewrite IH, is_space_lower_char.
  destruct (rstrip s); cbn [lower]; [destruct (is_space c)|]; reflexivity.
Qed.

(** Lower-casing and trimming commute. *)
Lemma strip_lower (s : string) : strip (lower s) = lower (strip s).
Proof. unfold strip. now rewrite lstrip_lower, rstrip_lower. Qed.

End PyStrCase.

Lemma occurs_in_trans (a b c : string) :
  PyStr.occurs_in a b -> PyStr.occurs_in b c -> PyStr.occurs_in a c.
Proof.
  intros [p1 [q1 ->]] [p2 [q2 ->]].
  exists (p2 ++ p1)%string, (q1 ++ q2)%string.
  induction p2 as [|x p2 IH]; cbn [String.append].
  - induction p1 as [|y p1 IH1]; cbn [String.append].
    + induction a as [|z a IHa]; cbn [String.append]; [reflexivity|].
      now rewrite IHa.
    + now rewrite IH1.
  - now rewrite IH.
Qed.

Lemma contains_trans (a b c : string) :
  PyStr.contains a b = true -> PyStr.contains b c = true ->
  PyStr.contains a c = true.
Proof.
  rewrite !PyStrFacts.contains_occurs. apply occurs_in_trans.
Qed.

(** The predicate returns true only on well-formed properties, unless no
    query is given. *)
Lemma matched_is_well_formed (f : pyval) (county_q state_q : string) (b : bool) :
  no_query county_q state_q = false ->
  feature_matches_county_state f county_q state_q = Ok b ->
  properties_well_formed f = true.
Proof.
  intros Hq H. destruct (properties_well_formed f) eqn:Hwf; [reflexivity|].
  rewrite (matches_ill_formed county_q state_q f Hwf Hq) in H. discriminate.
Qed.

Lemma filter_items_wider (c s c' s' : string) :
  at_least_as_wide c s c' s' ->
  forall items kept,
    filter_items items c s = Ok kept ->
    exists wider, filter_items items c' s' = Ok wider /\ sublist kept wider.
Proof.
  intros Hw. induction items as [|f rest IH]; intros kept; cbn [filter_items].
  - intros [= <-]. exists []. split; [reflexivity | constructor].
  - destruct (feature_matches_county_state f c s) as [b|e] eqn:Hf;
      cbn [bind]; [|discriminate].
    destruct (filter_items rest c s) as [kept0|e]; cbn [bind]; [|discriminate].
    intros [= <-].
    destruct (Hw f b Hf) as [b' [-> Hb]]. cbn [bind].
    destruct (IH kept0 eq_refl) as [wider0 [-> Hsub]]. cbn [bind].
    eexists. split; [reflexivity|].
    destruct b.
    + rewrite (Hb eq_refl). now constructor.
    + destruct b'; [now constructor | exact Hsub].
Qed.

Lemma no_query_county (c s : string) :
  no_query c s = true -> no_query c "(Any)" = true.
Proof.
  unfold no_query. destruct (PyStr.is_empty c); [reflexivity | discriminate].
Qed.

Lemma drop_state_wider (c s : string) : at_least_as_wide c s c "(Any)".
Proof.
  intros f b H. destruct (no_query c "(Any)") eqn:Hq'.
  - exists true. split; [now apply matches_no_query | reflexivity].
  - destruct (no_query c s) eqn:Hq.
    { apply no_query_county in Hq. congruence. }
    pose proof (matched_is_well_formed f c s b Hq H) as Hwf.
    rewrite (matches_well_formed c s f Hwf Hq) in H. injection H as <-.
    rewrite (matches_well_formed c "(Any)" f Hwf Hq').
    eexists. split; [reflexivity|].
    unfold text_checks. intros Hb. apply andb_true_iff in Hb as [-> _].
    reflexivity.
Qed.

Lemma drop_county_wider (c s : string) : at_least_as_wide c s "" s.
Proof.
  intros f b H. destruct (no_query "" s) eqn:Hq'.
  - exists true. split; [now apply matches_no_query | reflexivity].
  - destruct (no_query c s) eqn:Hq.
    { unfold no_query in Hq, Hq'. cbn in Hq'.
      destruct (PyStr.is_empty c); cbn in Hq; congruence. }
    pose proof (matched_is_well_formed f c s b Hq H) as Hwf.
    rewrite (matches_well_formed c s f Hwf Hq) in H. injection H as <-.
    rewrite (matches_well_formed "" s f Hwf Hq').
    eexists. split; [reflexivity|].
    unfold text_checks. intros Hb. apply andb_true_iff in Hb as [_ ->].
    reflexivity.
Qed.

(** X1. The predicate raises in one situation only: a query is given and
    the properties of the feature are not well formed (the feature or its
    [properties] is no mapping, or [areaDesc] is a true value that is no
    string); the exception is then [AttributeError]. *)
Theorem matches_raises_exactly (f : pyval) (county_q state_q : string) :
  (raises (feature_matches_county_state f county_q state_q)
   <-> no_query county_q state_q = false /\ properties_well_formed f = false)
  /\ (forall e,
        feature_matches_county_state f county_q state_q = Raise e ->
        e = AttributeError).
Proof.
  destruct (no_query county_q state_q) eqn:Hq.
  - rewrite (matches_no_query county_q state_q f Hq). split.
    + split; [intros [e H]; discriminate | intros [H _]; discriminate].
    + discriminate.
  - destruct (properties_well_formed f) eqn:Hwf.
    + rewrite (matches_well_formed county_q state_q f Hwf Hq). split.
      * split; [intros [e H]; discriminate | intros [_ H]; discriminate].
      * discriminate.
    + rewrite (matches_ill_formed county_q state_q f Hwf Hq). split.
      * split; [auto | intros _; exists AttributeError; reflexivity].
      * now intros e [= <-].
Qed.

(** Null properties under a county query. *)
Lemma matches_raises_exactly_witness :
  raises (feature_matches_county_state
            (PDict [("properties", PNone)]) "travis" "(Any)").
Proof.
  apply (proj1 (matches_raises_exactly
                  (PDict [("properties", PNone)]) "travis" "(Any)")).
  split; reflexivity.
Defined.

(** X2. The case of the county query does not matter: the query and its
    lower-cased form give the same outcome on every feature. *)
Theorem county_query_case_insensitive (f : pyval) (county_q state_q : string) :
  feature_matches_county_state f (PyStr.lower county_q) state_q
  = feature_matches_county_state f county_q state_q.
Proof.
  unfold feature_matches_county_state.
  now rewrite PyStrFacts.lower_empty, PyStrCase.strip_lower, PyStrCase.lower_idem.
Qed.

(** X3. A shorter county query matches at least as much: when the trimmed,
    lower-cased text of one query occurs in that of another, every feature
    the longer query accepts is accepted by the shorter one, the state
    query being the same. *)
Theorem shorter_county_query_matches_more
    (f : pyval) (short long state_q : string) :
  PyStr.is_empty short = false ->
  PyStr.is_empty long = false ->
  PyStr.occurs_in (PyStr.lower (PyStr.strip short))
                  (PyStr.lower (PyStr.strip long)) ->
  feature_matches_county_state f long state_q = Ok true ->
  feature_matches_county_state f short state_q = Ok true.
Proof.
  intros Hs Hl Hocc H.
  assert (Hqs : no_query short state_q = false)
    by (unfold no_query; now rewrite Hs).
  assert (Hql : no_query long state_q = false)
    by (unfold no_query; now rewrite Hl).
  pose proof (matched_is_well_formed f long state_q true Hql H) as Hwf.
  rewrite (matches_well_formed long state_q f Hwf Hql) in H.
  rewrite (matches_well_formed short state_q f Hwf Hqs).
  injection H as H. f_equal. revert H. unfold text_checks.
  rewrite Hs, Hl. cbn [negb]. rewrite !andb_true_iff. intros [Hc Hst].
  split; [|exact Hst].
  apply PyStrFacts.contains_occurs in Hocc.
  exact (contains_trans _ _ _ Hocc Hc).
Qed.

(** "Trav" accepts what " Travis " accepts. *)
Lemma shorter_county_query_matches_more_witness :
  feature_matches_county_state sample_point "Trav" "TX" = Ok true.
Proof.
  apply (shorter_county_query_matches_more sample_point "Trav" " Travis " "TX");
    try reflexivity.
  exists "", "is". reflexivity.
Defined.

(** X4. Dropping a part of the query can only widen the result: what the
    filter keeps under a county and a state query is a subsequence of what
    it keeps under the county query alone, and of what it keeps under the
    state query alone; and when the filter returns under both, it returns
    under either. *)
Theorem dropping_a_query_widens
    (L kept : list pyval) (county_q state_q : string) :
  filter_features (PList L) county_q state_q = Ok kept ->
  (exists wider,
      filter_features (PList L) county_q "(Any)" = Ok wider
      /\ sublist kept wider)
  /\ (exists wider,
        filter_features (PList L) "" state_q = Ok wider
        /\ sublist kept wider).
Proof.
  unfold filter_features. cbn [py_iter bind]. intros H. split.
  - exact (filter_items_wider _ _ _ _ (drop_state_wider county_q state_q) L kept H).
  - exact (filter_items_wider _ _ _ _ (drop_county_wider county_q state_q) L kept H).
Qed.

(** Travis in Texas, against Travis anywhere and anything in Texas. *)
Lemma dropping_a_query_widens_witness :
  (exists wider,
      filter_features (PList [sample_point; zone_alert]) "travis" "(Any)"
      = Ok wider
      /\ sublist [sample_point; zone_alert] wider)
  /\ (exists wider,
        filter_features (PList [sample_point; zone_alert]) "" "TX" = Ok wider
        /\ sublist [sample_point; zone_alert] wider).
Proof.
  exact (dropping_a_query_widens [sample_point; zone_alert]
           [sample_point; zone_alert] "travis" "TX" eq_refl).
Defined.

Lemma filter_items_no_query (items : list pyval) (state_q : string) :
  no_query "" state_q = true ->
  filter_items items "" state_q = Ok items.
Proof.
  intros Hq. induction items as [|f rest IH]; cbn [filter_items]; [reflexivity|].
  rewrite (matches_no_query "" state_q f Hq), IH. reflexivity.
Qed.

Lemma filter_items_again (c s : string) (items : list pyval) :
  forall kept,
    filter_items items c s = Ok kept -> filter_items kept c s = Ok kept.
Proof.
  induction items as [|f rest IH]; intros kept; cbn [filter_items].
  - now intros [= <-].
  - destruct (feature_matches_county_state f c s) as [b|e] eqn:Hf;
      cbn [bind]; [|discriminate].
    destruct (filter_items rest c s) as [kept0|e]; cbn [bind]; [|discriminate].
    intros [= <-]. specialize (IH kept0 eq_refl).
    destruct b; [|exact IH].
    cbn [filter_items]. rewrite Hf, IH. reflexivity.
Qed.

(** X5. Without a query the filter keeps the whole list as it is, whatever
    its elements are: no feature is looked at. *)
Theorem no_query_keeps_all (L : list pyval) :
  filter_features (PList L) "" "(Any)" = Ok L
  /\ filter_features (PList L) "" "" = Ok L.
Proof.
  unfold filter_features. cbn [py_iter bind].
  split; now apply filter_items_no_query.
Qed.

(** X6. Filtering twice is filtering once: on the list it has kept, the
    filter returns and keeps everything. *)
Theorem filter_idempotent (L kept : list pyval) (county_q state_q : string) :
  filter_features (PList L) county_q state_q = Ok kept ->
  filter_features (PList kept) county_q state_q = Ok kept.
Proof.
  unfold filter_features. cbn [py_iter bind]. apply filter_items_again.
Qed.

Lemma filter_idempotent_witness :
  filter_features (PList [sample_point]) "travis" "TX" = Ok [sample_point].
Proof.
  exact (filter_idempotent [PDict []; sample_point] [sample_point]
           "travis" "TX" eq_refl).
Defined.

(** * More on the viewport *)

Lemma py_truth_cons (x : pyval) (l : list pyval) :
  py_truth (PList (x :: l)) = true.
Proof. reflexivity. Qed.

(** Two features whose turns end alike give the same viewport in front of
    the same features. *)
Lemma compute_cons_same_step (f1 f2 : pyval) (rest : list pyval) :
  feature_step f1 = feature_step f2 ->
  compute_initial_map_center (feature_collection (PList (f1 :: rest)))
  = compute_initial_map_center (feature_collection (PList (f2 :: rest))).
Proof.
  intros H. unfold compute_initial_map_center. rewrite !center_try_cons.
  cbn [scan_features]. now rewrite H.
Qed.

(** The turn of a feature that is a [MultiPolygon] whose first polygon has
    a first ring that is not empty. *)
Lemma multipolygon_step (f : pyval) (gi : list (string * pyval))
    (ring : pyval) (holes polygons : list pyval) :
  geometry_of f = Some gi ->
  dict_lookup gi "type" = Some (PStr "MultiPolygon") ->
  dict_lookup gi "coordinates"
  = Some (PList (PList (ring :: holes) :: polygons)) ->
  py_truth ring = true ->
  feature_step f = (let! v := ring_center ring in Ok (Some v)).
Proof.
  intros Hg Ht Hc Hr.
  rewrite (feature_step_geometry f gi _ Hg Ht).
  unfold geometry_center. cbn [py_eq_str String.eqb Ascii.eqb Bool.eqb py_get].
  rewrite Hc. cbn [bind]. rewrite py_truth_cons. cbn [bind py_index nth_error].
  rewrite py_truth_cons. cbn [bind py_index nth_error].
  now rewrite Hr.
Qed.

(** X7. When the first feature is a [MultiPolygon] whose first polygon has
    a non-empty first ring of positions with int longitude and latitude,
    the viewport has zoom 6, the sum of the latitudes of that ring divided
    by the number of its positions, and the sum of its longitudes divided
    by it; when a quotient is too large for a float, the viewport is the
    CONUS fallback.  The other rings, the other polygons and the features
    after it play no part. *)
Theorem multipolygon_viewport
    (f : pyval) (gi : list (string * pyval))
    (pts : list (pyval * pyval * list pyval))
    (holes polygons rest : list pyval) :
  geometry_of f = Some gi ->
  dict_lookup gi "type" = Some (PStr "MultiPolygon") ->
  dict_lookup gi "coordinates"
  = Some (PList (PList (PList (map position pts) :: holes) :: polygons)) ->
  pts <> [] ->
  forallb integer_position pts = true ->
  compute_initial_map_center (feature_collection (PList (f :: rest)))
  = match int_true_div (position_lon_sum pts) (Z.of_nat (length pts)),
          int_true_div (position_lat_sum pts) (Z.of_nat (length pts)) with
    | Ok lon, Ok lat => (PFloat lat, PFloat lon, 6)
    | _, _ => conus_fallback
    end.
Proof.
  intros Hg Ht Hc Hne Hint.
  rewrite (compute_cons_ring f rest _
             (multipolygon_step f gi _ holes polygons Hg Ht Hc
                (made_ring_truth _ position pts Hne))).
  rewrite (ring_center_integers _ position (fun p => fst (fst p))
             (fun p => snd (fst p)) (fun p => eq_refl) (fun p => eq_refl)
             pts Hne Hint).
  apply integer_ring_viewport.
Qed.

(** Two triangles; the first decides: centre (1, 1). *)
Lemma multipolygon_viewport_witness :
  compute_initial_map_center (feature_collection (PList [two_triangles]))
  = (PFloat (float_lit (Qmake 1 1)), PFloat (float_lit (Qmake 1 1)), 6).
Proof.
  refine (multipolygon_viewport two_triangles _ triangle [] _ []
            eq_refl eq_refl eq_refl _ eq_refl).
  discriminate.
Defined.

(** X8. Positions may carry more than longitude and latitude: when the
    first feature is a [Polygon] whose first ring is a non-empty list of
    positions with int longitude and latitude, the further entries of the
    positions are ignored, whatever they are, and the viewport is as for a
    ring of pairs: zoom 6 with the two quotients, or the CONUS fallback
    when a quotient is too large for a float. *)
Theorem polygon_positions_viewport
    (f : pyval) (gi : list (string * pyval))
    (pts : list (pyval * pyval * list pyval)) (holes rest : list pyval) :
  geometry_of f = Some gi ->
  dict_lookup gi "type" = Some (PStr "Polygon") ->
  dict_lookup gi "coordinates" = Some (PList (PList (map position pts) :: holes)) ->
  pts <> [] ->
  forallb integer_position pts = true ->
  compute_initial_map_center (feature_collection (PList (f :: rest)))
  = match int_true_div (position_lon_sum pts) (Z.of_nat (length pts)),
          int_true_div (position_lat_sum pts) (Z.of_nat (length pts)) with
    | Ok lon, Ok lat => (PFloat lat, PFloat lon, 6)
    | _, _ => conus_fallback
    end.
Proof.
  intros Hg Ht Hc Hne Hint.
  rewrite (compute_cons_ring f rest _
             (polygon_step f gi _ holes Hg Ht Hc
                (made_ring_truth _ position pts Hne))).
  rewrite (ring_center_integers _ position (fun p => fst (fst p))
             (fun p => snd (fst p)) (fun p => eq_refl) (fun p => eq_refl)
             pts Hne Hint).
  apply integer_ring_viewport.
Qed.

(** A segment with altitudes 120 and "high": centre (30.5, -96.5). *)
Lemma polygon_positions_viewport_witness :
  compute_initial_map_center (feature_collection (PList [raised_polygon]))
  = (PFloat (float_lit (Qmake 61 2)), PFloat (float_lit (Qmake (-193) 2)), 6).
Proof.
  refine (polygon_positions_viewport raised_polygon _ raised_positions [] []
            eq_refl eq_refl eq_refl _ eq_refl).
  discriminate.
Defined.

(** X9. A [Polygon] and a [MultiPolygon] whose first polygon starts with
    the same ring are treated alike, whatever that ring is: same viewport,
    and the same outcome (used, passed over, or scan ended) in front of the
    same features. *)
Theorem polygon_and_multipolygon_agree
    (f1 f2 : pyval) (g1 g2 : list (string * pyval))
    (ring : pyval) (holes1 holes2 polygons rest : list pyval) :
  geometry_of f1 = Some g1 ->
  dict_lookup g1 "type" = Some (PStr "Polygon") ->
  dict_lookup g1 "coordinates" = Some (PList (ring :: holes1)) ->
  geometry_of f2 = Some g2 ->
  dict_lookup g2 "type" = Some (PStr "MultiPolygon") ->
  dict_lookup g2 "coordinates"
  = Some (PList (PList (ring :: holes2) :: polygons)) ->
  feature_step f1 = feature_step f2
  /\ compute_initial_map_center (feature_collection (PList (f1 :: rest)))
     = compute_initial_map_center (feature_collection (PList (f2 :: rest))).
Proof.
  intros Hg1 Ht1 Hc1 Hg2 Ht2 Hc2.
  assert (H : feature_step f1 = feature_step f2).
  { rewrite (feature_step_geometry f1 g1 _ Hg1 Ht1).
    rewrite (feature_step_geometry f2 g2 _ Hg2 Ht2).
    unfold geometry_center. cbn [py_eq_str String.eqb Ascii.eqb Bool.eqb py_get].
    rewrite Hc1, Hc2. cbn [bind]. rewrite py_truth_cons.
    cbn [bind py_index nth_error]. rewrite py_truth_cons.
    cbn [bind py_index nth_error].
    destruct (py_truth ring); reflexivity. }
  split; [exact H | now apply compute_cons_same_step].
Qed.

(** The lettered ring as a polygon and as a multipolygon: both end the
    scan. *)
Lemma polygon_and_multipolygon_agree_witness :
  feature_step lettered_polygon = feature_step lettered_multipolygon
  /\ compute_initial_map_center
       (feature_collection (PList [lettered_polygon; sample_point]))
     = compute_initial_map_center
         (feature_collection (PList [lettered_multipolygon; sample_point])).
Proof.
  exact (polygon_and_multipolygon_agree lettered_polygon lettered_multipolygon
           _ _ (PList [PList [PStr "a"; PStr "b"]]) [] [] [] [sample_point]
           eq_refl eq_refl eq_refl eq_refl eq_refl eq_refl).
Defined.

(** X10. A [Point] must have exactly two coordinates: with a list of any
    other length (a position with an altitude, say) the unpacking raises,
    the scan ends, and the viewport is the CONUS fallback whatever features
    follow. *)
Theorem point_needs_two_coordinates
    (f : pyval) (gi : list (string * pyval)) (cs rest : list pyval) :
  geometry_of f = Some gi ->
  dict_lookup gi "type" = Some (PStr "Point") ->
  dict_lookup gi "coordinates" = Some (PList cs) ->
  length cs <> 2%nat ->
  feature_step f = Raise ValueError
  /\ compute_initial_map_center (feature_collection (PList (f :: rest)))
     = conus_fallback.
Proof.
  intros Hg Ht Hc Hlen.
  assert (H : feature_step f = Raise ValueError).
  { rewrite (feature_step_geometry f gi _ Hg Ht).
    unfold geometry_center. cbn [py_eq_str String.eqb Ascii.eqb Bool.eqb py_get].
    rewrite Hc. cbn [bind]. unfold py_unpack2. cbn [py_iter bind].
    destruct cs as [|a [|b [|c cs]]]; try reflexivity.
    now contradiction Hlen. }
  split; [exact H|]. apply compute_cons_raised. now exists ValueError.
Qed.

(** A point with an altitude in front of a plain point. *)
Lemma point_needs_two_coordinates_witness :
  feature_step raised_point = Raise ValueError
  /\ compute_initial_map_center
       (feature_collection (PList [raised_point; sample_point]))
     = conus_fallback.
Proof.
  apply (point_needs_two_coordinates raised_point _ _ [sample_point]
           eq_refl eq_refl eq_refl).
  discriminate.
Defined.

(** X11. When the [features] entry of the collection is anything but a
    list (null, a number, a string, a mapping), the viewport is the CONUS
    fallback. *)
Theorem features_not_a_list (fs : pyval) :
  is_list fs = false ->
  compute_initial_map_center (feature_collection fs) = conus_fallback.
Proof.
  intros H. destruct fs as [|b|z|q|s|l|items]; try discriminate H;
    try reflexivity.
  - destruct s; reflexivity.
  - destruct items; reflexivity.
Qed.

Lemma features_not_a_list_witness :
  compute_initial_map_center
    (feature_collection (PDict [("0", sample_point)]))
  = conus_fallback.
Proof. exact (features_not_a_list (PDict [("0", sample_point)]) eq_refl). Defined.

Lemma compute_skips_prefix (pre rest : list pyval) :
  forallb quietly_unusable pre = true ->
  compute_initial_map_center (feature_collection (PList (pre ++ rest)))
  = compute_initial_map_center (feature_collection (PList rest)).
Proof.
  induction pre as [|f pre IH]; cbn [forallb app]; [reflexivity|].
  intros H. apply andb_true_iff in H as [Hf Hpre].
  rewrite <- (IH Hpre).
  apply compute_cons_skipped. now apply quietly_unusable_step.
Qed.

(** X12. Alerts without a usable geometry in front do not matter, however
    many there are: the viewport of a list that starts with quietly
    unusable features is the viewport of the rest of the list, and the
    fallback when nothing else is left. *)
Theorem unusable_prefix_ignored (pre rest : list pyval) :
  forallb quietly_unusable pre = true ->
  compute_initial_map_center (feature_collection (PList (pre ++ rest)))
  = compute_initial_map_center (feature_collection (PList rest))
  /\ compute_initial_map_center (feature_collection (PList pre))
     = conus_fallback.
Proof.
  intros H. split; [now apply compute_skips_prefix|].
  rewrite <- (app_nil_r pre) at 1. now rewrite compute_skips_prefix.
Qed.

Lemma unusable_prefix_ignored_witness :
  compute_initial_map_center
    (feature_collection
       (PList ([zone_alert; sample_line; hollow_polygon; zone_alert]
               ++ [sample_point])))
  = compute_initial_map_center (feature_collection (PList [sample_point]))
  /\ compute_initial_map_center
       (feature_collection
          (PList [zone_alert; sample_line; hollow_polygon; zone_alert]))
     = conus_fallback.
Proof.
  exact (unusable_prefix_ignored
           [zone_alert; sample_line; hollow_polygon; zone_alert]
           [sample_point] eq_refl).
Defined.

(** ** The zoom *)

Lemma ring_center_zoom (coords : pyval) (v : viewport) :
  ring_center coords = Ok v -> zoom_of v = 6.
Proof.
  unfold ring_center.
  destruct (sum_component 0 coords); cbn [bind]; [|discriminate].
  destruct (py_len coords); cbn [bind]; [|discriminate].
  destruct (num_div _ _); cbn [bind]; [|discriminate].
  destruct (sum_component 1 coords); cbn [bind]; [|discriminate].
  destruct (num_div _ _); cbn [bind]; [|discriminate].
  now intros [= <-].
Qed.

Lemma found_ring_zoom (coords : pyval) (v : viewport) :
  (let! w := ring_center coords in Ok (Some w)) = Ok (Some v) -> zoom_of v = 6.
Proof.
  destruct (ring_center coords) as [w|e] eqn:E; cbn [bind]; [|discriminate].
  intros [= <-]. exact (ring_center_zoom coords w E).
Qed.

Lemma geometry_center_zoom (geom gtype : pyval) (v : viewport) :
  geometry_center geom gtype = Ok (Some v) -> zoom_of v = 6.
Proof.
  unfold geometry_center.
  destruct (py_eq_str gtype "Polygon").
  { destruct (py_get geom "coordinates" (PList [])) as [cs|]; cbn [bind];
      [|discriminate].
    destruct (py_index cs 0) as [coords|]; cbn [bind]; [|discriminate].
    destruct (py_truth coords); [apply found_ring_zoom | discriminate]. }
  destruct (py_eq_str gtype "MultiPolygon").
  { destruct (py_get geom "coordinates" (PList [])) as [polys|]; cbn [bind];
      [|discriminate].
    destruct (py_truth polys); [|discriminate].
    destruct (py_index polys 0) as [p0|]; cbn [bind]; [|discriminate].
    destruct (py_truth p0); [|discriminate].
    destruct (py_index p0 0) as [r0|]; cbn [bind]; [|discriminate].
    destruct (py_truth r0); [apply found_ring_zoom | discriminate]. }
  destruct (py_eq_str gtype "Point"); [|discriminate].
  destruct (py_get geom "coordinates" _) as [c|]; cbn [bind]; [|discriminate].
  destruct (py_unpack2 c) as [[lon lat]|]; cbn [bind]; [|discriminate].
  now intros [= <-].
Qed.

Lemma feature_step_zoom (f : pyval) (v : viewport) :
  feature_step f = Ok (Some v) -> zoom_of v = 6.
Proof.
  unfold feature_step.
  destruct (py_get f "geometry" PNone) as [g|]; cbn [bind]; [|discriminate].
  destruct (py_get _ "type" PNone) as [t|]; cbn [bind]; [|discriminate].
  apply geometry_center_zoom.
Qed.

Lemma scan_features_zoom (feats : list pyval) (v : viewport) :
  scan_features feats = Ok (Some v) -> zoom_of v = 6.
Proof.
  induction feats as [|f rest IH]; cbn [scan_features]; [discriminate|].
  destruct (feature_step f) as [[w|]|e] eqn:E; cbn [bind]; try discriminate.
  - intros [= <-]. exact (feature_step_zoom f w E).
  - exact IH.
Qed.

(** X13. Whatever the input, the viewport has zoom 6 or it is the CONUS
    fallback with zoom 4: zoom 6 is the mark of a viewport taken from a
    feature. *)
Theorem zoom_six_or_fallback (geojson : pyval) :
  zoom_of (compute_initial_map_center geojson) = 6
  \/ compute_initial_map_center geojson = conus_fallback.
Proof.
  unfold compute_initial_map_center.
  destruct (center_try geojson) as [[v|]|e] eqn:E; [left | right | right];
    try reflexivity.
  revert E. unfold center_try.
  destruct (py_get geojson "features" (PList [])) as [fs|]; cbn [bind];
    [|discriminate].
  destruct (py_iter fs) as [feats|]; cbn [bind]; [|discriminate].
  apply scan_features_zoom.
Qed.

(** * The user agent *)

(** X14. The resolved user agent is never empty: whatever the environment
    and the secrets store give, or fail to give, the result is a true
    value, so the request never goes out with a blank [User-Agent]. *)
Theorem user_agent_never_empty (env : option string) (secret : result pyval) :
  py_truth (resolve_user_agent env secret) = true.
Proof.
  unfold resolve_user_agent.
  destruct env as [[|c s]|]; cbn [py_truth PyStr.is_empty negb]; try reflexivity;
    destruct secret as [v|e]; try reflexivity;
    destruct (py_truth v) eqn:Hv; cbn [negb]; try reflexivity; exact Hv.
Qed.

(** X15. The order of the sources.  A non-empty environment variable wins,
    whatever the secrets store holds or raises.  Without it, a true secret
    is taken as it is.  Without both (the secret is a false value or the
    lookup raises), the built-in default is used. *)
Theorem user_agent_precedence (env : option string) (secret : result pyval) :
  (env_gives_nothing env = false ->
   exists s, env = Some s /\ resolve_user_agent env secret = PStr s)
  /\ (env_gives_nothing env = true ->
      forall v, secret = Ok v -> py_truth v = true ->
      resolve_user_agent env secret = v)
  /\ (env_gives_nothing env = true ->
      (raises secret \/ exists v, secret = Ok v /\ py_truth v = false) ->
      resolve_user_agent env secret = PStr DEFAULT_USER_AGENT).
Proof.
  unfold resolve_user_agent, env_gives_nothing.
  split; [|split].
  - destruct env as [[|c s]|]; try discriminate. intros _. eexists.
    split; reflexivity.
  - intros He v -> Hv.
    destruct env as [[|c s]|]; try discriminate He;
      cbn [py_truth PyStr.is_empty negb]; now rewrite Hv.
  - intros He [[e ->] | [v [-> Hv]]];
      destruct env as [[|c s]|]; try discriminate He;
      cbn [py_truth PyStr.is_empty negb]; try reflexivity; now rewrite Hv.
Qed.

Lemma user_agent_precedence_witness :
  resolve_user_agent (Some "me/1.0") (Ok (PStr "secret/2.0")) = PStr "me/1.0"
  /\ resolve_user_agent (Some "") (Ok (PStr "secret/2.0")) = PStr "secret/2.0"
  /\ resolve_user_agent None (Raise KeyError) = PStr DEFAULT_USER_AGENT.
Proof.
  split; [|split].
  - destruct (proj1 (user_agent_precedence (Some "me/1.0") (Ok (PStr "secret/2.0")))
                eq_refl) as [s [[= <-] H]].
    exact H.
  - exact (proj1 (proj2 (user_agent_precedence (Some "") (Ok (PStr "secret/2.0"))))
             eq_refl _ eq_refl eq_refl).
  - apply (proj2 (proj2 (user_agent_precedence None (Raise KeyError))));
      [reflexivity|].
    left. exists KeyError. reflexivity.
Defined.

(** * The tooltip *)

Lemma select_fields_outcome (props : pyval) (fs : list string) :
  match select_fields fs props with
  | Ok chosen => sublist chosen fs
  | Raise e => e = TypeError
  end.
Proof.
  induction fs as [|f rest IH]; cbn [select_fields]; [constructor|].
  destruct (py_in f props) as [present|e] eqn:Hin; cbn [bind].
  - destruct (select_fields rest props) as [chosen|e]; cbn [bind]; [|exact IH].
    destruct present; now constructor.
  - destruct props; try discriminate Hin; now injection Hin as <-.
Qed.

(** On a mapping the selection returns: the fields that are keys of it. *)
Lemma select_fields_dict (pi : list (string * pyval)) (fs : list string) :
  select_fields fs (PDict pi) = Ok (List.filter (has_key pi) fs).
Proof.
  induction fs as [|f rest IH]; cbn [select_fields List.filter]; [reflexivity|].
  cbn [py_in bind]. rewrite IH. cbn [bind]. reflexivity.
Qed.

Lemma alias_of_desired (f : string) :
  f ∈ desired_fields -> returns (alias_of aliases_map f).
Proof.
  unfold desired_fields. rewrite !elem_of_cons, elem_of_nil.
  intros [->|[->|[->|[->|[->|[->|[]]]]]]]; eexists; reflexivity.
Qed.

(** Every field taken from the desired ones has an alias: the lookups
    return, one alias for each field, in order. *)
Lemma lookup_aliases_desired (fields : list string) :
  (forall f, f ∈ fields -> f ∈ desired_fields) ->
  exists aliases,
    lookup_aliases fields = Ok aliases
    /\ Forall2 (fun f a => alias_of aliases_map f = Ok a) fields aliases.
Proof.
  induction fields as [|f rest IH]; intros Hin; cbn [lookup_aliases].
  - exists []. split; [reflexivity | constructor].
  - destruct (alias_of_desired f) as [a Ha]; [apply Hin; left|].
    destruct IH as [aliases [Hl HF]]; [intros g Hg; apply Hin; now right|].
    rewrite Ha, Hl. cbn [bind]. exists (a :: aliases).
    split; [reflexivity | now constructor].
Qed.

(** The tooltip of a first feature whose properties can be sampled. *)
Lemma build_tooltip_sampled (first : pyval) (rest : list pyval)
    (pi : list (string * pyval)) :
  sample_properties first = Some pi ->
  exists aliases,
    lookup_aliases (List.filter (has_key pi) desired_fields) = Ok aliases
    /\ Forall2 (fun f a => alias_of aliases_map f = Ok a)
         (List.filter (has_key pi) desired_fields) aliases
    /\ build_tooltip (first :: rest)
       = Ok (match List.filter (has_key pi) desired_fields with
             | [] => None
             | fields => Some (Tooltip fields aliases true true)
             end).
Proof.
  intros Hs.
  destruct (lookup_aliases_desired (List.filter (has_key pi) desired_fields))
    as [aliases [Hl HF]].
  { intros f Hf. apply list_elem_of_In in Hf. apply filter_In in Hf as [Hf _].
    now apply list_elem_of_In. }
  exists aliases. split; [exact Hl|]. split; [exact HF|].
  assert (Hsel : forall v,
             (v = PDict pi \/ (py_truth v = false /\ pi = [])) ->
             (let! fields := select_fields desired_fields (py_or v (PDict [])) in
              match fields with
              | [] => Ok None
              | _ :: _ =>
                  let! aliases := lookup_aliases fields in
                  Ok (Some (Tooltip fields aliases true true))
              end)
             = Ok (match List.filter (has_key pi) desired_fields with
                   | [] => None
                   | fields => Some (Tooltip fields aliases true true)
                   end)).
  { intros v Hv.
    assert (Hor : py_or v (PDict []) = PDict pi).
    { destruct Hv as [-> | [Hv ->]]; unfold py_or.
      - destruct pi; reflexivity.
      - now rewrite Hv. }
    rewrite Hor, select_fields_dict. cbn [bind].
    destruct (List.filter (has_key pi) desired_fields) as [|f fields];
      [reflexivity|].
    rewrite Hl. reflexivity. }
  unfold build_tooltip. destruct first as [| | | | |l|fi]; try discriminate Hs.
  cbn [sample_properties py_get] in *.
  destruct (dict_lookup fi "properties") as [p|]; cbn [bind].
  - apply Hsel. destruct p as [|b|z|q|s|l|pj];
      try (destruct (py_truth _) eqn:Hp in Hs; [discriminate Hs|];
           injection Hs as <-; right; split; [exact Hp | reflexivity]).
    injection Hs as ->. now left.
  - injection Hs as <-. apply (Hsel PNone). right. split; reflexivity.
Qed.

(** X16. The fields of a tooltip always have their aliases.  When a
    tooltip is built, its fields are a non-empty subsequence of the six
    desired fields and its aliases are the aliases of these fields, one for
    each and in the same order; the lookup in the alias table never raises
    [KeyError].  The only exceptions are [AttributeError] (the first
    feature is no mapping) and [TypeError] (its properties are a true value
    that is no container). *)
Theorem tooltip_fields_have_aliases (features : list pyval) :
  match build_tooltip features with
  | Ok (Some t) =>
      tip_fields t <> []
      /\ sublist (tip_fields t) desired_fields
      /\ Forall2 (fun f a => alias_of aliases_map f = Ok a)
           (tip_fields t) (tip_aliases t)
      /\ length (tip_aliases t) = length (tip_fields t)
  | Ok None => True
  | Raise e => e = AttributeError \/ e = TypeError
  end.
Proof.
  unfold build_tooltip. destruct features as [|first rest]; [exact I|].
  destruct (py_get first "properties" PNone) as [p|e] eqn:Hp; cbn [bind].
  - pose proof (select_fields_outcome (py_or p (PDict [])) desired_fields) as Hsel.
    destruct (select_fields desired_fields (py_or p (PDict []))) as [fields|e];
      cbn [bind]; [|now right].
    destruct fields as [|f fields]; [exact I|].
    destruct (lookup_aliases_desired (f :: fields)) as [aliases [-> HF]].
    { intros g Hg. eapply elem_of_sublist; eassumption. }
    cbn [bind tip_fields tip_aliases]. repeat split; try assumption.
    + discriminate.
    + symmetry. eapply Forall2_length; eassumption.
  - left. destruct first; try (now injection Hp as <-).
    cbn [py_get] in Hp. destruct (dict_lookup _ _); discriminate Hp.
Qed.

(** X17. Which fields the tooltip shows.  When the properties of the first
    feature can be sampled (the feature is a mapping; its [properties] is
    a mapping, absent, or a false value), the tooltip is built without an
    exception from that feature alone: its fields are those of the six
    desired fields that are keys of the properties, in the order of the
    desired fields, and there is no tooltip exactly when none is a key. *)
Theorem tooltip_shows_present_fields
    (first : pyval) (rest : list pyval) (pi : list (string * pyval)) :
  sample_properties first = Some pi ->
  exists r,
    build_tooltip (first :: rest) = Ok r
    /\ match r with
       | None => List.filter (has_key pi) desired_fields = []
       | Some t =>
           tip_fields t = List.filter (has_key pi) desired_fields
           /\ tip_fields t <> []
           /\ tip_sticky t = true /\ tip_localize t = true
       end.
Proof.
  intros Hs.
  destruct (build_tooltip_sampled first rest pi Hs) as [aliases [_ [_ ->]]].
  eexists. split; [reflexivity|].
  destruct (List.filter (has_key pi) desired_fields) as [|f fields];
    [reflexivity|].
  cbn [tip_fields tip_sticky tip_localize]. repeat split. discriminate.
Qed.

(** An alert with a headline, an area and an unknown key. *)
Lemma tooltip_shows_present_fields_witness :
  exists r,
    build_tooltip
      [PDict [("properties",
               PDict [("areaDesc", PStr "Travis, TX");
                      ("id", PInt 7);
                      ("headline", PStr "Flash Flood Warning")])];
       PInt 0]
    = Ok r
    /\ match r with
       | None => False
       | Some t => tip_fields t = ["headline"; "areaDesc"]
       end.
Proof.
  destruct (tooltip_shows_present_fields
              (PDict [("properties",
                       PDict [("areaDesc", PStr "Travis, TX");
                              ("id", PInt 7);
                              ("headline", PStr "Flash Flood Warning")])])
              [PInt 0] _ eq_refl) as [r [Hr Hm]].
  exists r. split; [exact Hr|].
  destruct r as [t|]; [exact (proj1 Hm) | discriminate Hm].
Defined.

(** * The map *)








(** * The state selector *)

Lemma state_abbrs_are_queries (o : string) :
  o ∈ STATE_ABBRS -> no_query "" o = false /\ state_given o = true.
Proof.
  intros Ho. apply list_elem_of_In in Ho.
  assert (H : forallb (fun o => negb (no_query "" o) && state_given o)
                STATE_ABBRS = true) by reflexivity.
  rewrite forallb_forall in H. specialize (H o Ho).
  apply andb_true_iff in H as [H1 H2]. apply negb_true_iff in H1. auto.
Qed.

(** The predicate under a state query alone. *)
Lemma matches_state_only (f : pyval) (state_q : string) :
  no_query "" state_q = false ->
  (feature_matches_county_state f "" state_q = Ok true
   <-> exists t, area_desc_of f = Some t
                 /\ PyStr.occurs_in (PyStr.lower state_q) (PyStr.lower t)).
Proof.
  intros Hq.
  assert (Hs : state_given state_q = true).
  { revert Hq. unfold no_query, state_given. cbn [PyStr.is_empty andb].
    destruct (PyStr.is_empty state_q), (String.eqb state_q ANY);
      cbn; congruence. }
  assert (Hne : PyStr.is_empty (PyStr.lower state_q) = false).
  { rewrite PyStrFacts.lower_empty. unfold state_given in Hs.
    apply andb_true_iff in Hs as [Hs _]. now apply negb_true_iff in Hs. }
  destruct (properties_well_formed f) eqn:Hwf.
  - rewrite (matches_well_formed "" state_q f Hwf Hq).
    unfold text_checks. rewrite Hs. cbn [PyStr.is_empty negb andb].
    unfold area_text. destruct (area_desc_of f) as [t|].
    + split.
      * intros [= H]. exists t. split; [reflexivity|].
        now apply PyStrFacts.contains_occurs.
      * intros [t' [[= <-] H]]. f_equal. now apply PyStrFacts.contains_occurs.
    + cbn [PyStr.lower]. rewrite PyStrFacts.contains_empty_hay, Hne.
      split; [discriminate | intros [t [H _]]; discriminate].
  - rewrite (matches_ill_formed "" state_q f Hwf Hq).
    rewrite (ill_formed_no_area_desc f Hwf).
    split; [discriminate | intros [t [H _]]; discriminate].
Qed.

(** X21. Every state of the select box filters.  The sentinel is none of
    the abbreviations, so with no county text, choosing an abbreviation
    keeps exactly the alerts whose area description contains the
    abbreviation, upper or lower case, anywhere in the text. *)
Theorem choosing_a_state_filters (o : string) (f : pyval) :
  o ∈ STATE_ABBRS ->
  o <> "(Any)"
  /\ (feature_matches_county_state f "" o = Ok true
      <-> exists t, area_desc_of f = Some t
                    /\ PyStr.occurs_in (PyStr.lower o) (PyStr.lower t)).
Proof.
  intros Ho. destruct (state_abbrs_are_queries o Ho) as [Hq Hs]. split.
  - intros ->. discriminate Hs.
  - now apply matches_state_only.
Qed.

(** Indiana is found in "Collin, TX". *)
Lemma choosing_a_state_filters_witness :
  feature_matches_county_state
    (PDict [("properties", PDict [("areaDesc", PStr "Collin, TX")])]) "" "IN"
  = Ok true.
Proof.
  apply (proj2 (choosing_a_state_filters "IN"
                  (PDict [("properties", PDict [("areaDesc", PStr "Collin, TX")])])
                  ltac:(apply list_elem_of_In; cbn; tauto))).
  exists "Collin, TX". split; [reflexivity|].
  exists "coll", ", tx". reflexivity.
Defined.


(** ** The float operations on some inputs *)

(** True division of ints rounds once: 1/3 is the float below one third,
    2^53 + 1 (a tie) goes to the even neighbour, 10^400 / 10^399 is 10;
    a quotient too large for a float raises, and the limit is the midpoint
    2^1024 - 2^970 between the largest float and 2^1024. *)
Example int_true_div_samples :
  int_true_div 1 3 = Ok (S754_finite false 6004799503160661 (-54))
  /\ int_true_div (2 ^ 53 + 1) 1 = Ok (S754_finite false 4503599627370496 1)
  /\ int_true_div (10 ^ 400) (10 ^ 399) = Ok (float_lit (Qmake 10 1))
  /\ int_true_div (10 ^ 400) 1 = Raise OverflowError
  /\ int_true_div (2 ^ 1024 - 2 ^ 970) 1 = Raise OverflowError
  /\ int_true_div (2 ^ 1024 - 2 ^ 970 - 1) 1
     = Ok (S754_finite false 9007199254740991 971)
  /\ int_true_div 1 0 = Raise ZeroDivisionError.
Proof. repeat split; reflexivity. Qed.

(** An int meets a float: the int is converted first, and a huge one
    raises; two large floats add up to infinity without an exception. *)
Example num_add_samples :
  num_add (NFloat (float_lit (Qmake 15 10))) (PInt (10 ^ 400))
  = Raise OverflowError
  /\ num_add (NInt (10 ^ 400)) (PFloat (float_lit (Qmake 15 10)))
     = Raise OverflowError
  /\ num_add (NInt 1) (PFloat (float_lit (Qmake 15 10)))
     = Ok (NFloat (float_lit (Qmake 25 10)))
  /\ num_add (NFloat (float_lit (inject_Z (10 ^ 308))))
       (PFloat (float_lit (inject_Z (10 ^ 308))))
     = Ok (NFloat (S754_infinity false))
  /\ num_add (NInt 2) (PBool true) = Ok (NInt 3)
  /\ num_add (NInt 2) (PStr "3") = Raise TypeError.
Proof. repeat split; reflexivity. Qed.
